(** * The transactional identity-and-token workflow of AuthenticationController

    A shallow embedding of [AuthenticationController] (sign-in, register,
    activate, forget-password, recover) together with the collaborators it
    calls: the persistence gateway ([DatabaseService] and the entity
    manager), bcrypt, the token signer and the mail port.

    Every awaited call on a collaborator is an effect on a [World]: it is
    recorded in the world's call trace, it may throw (the world carries a
    script of faults), and otherwise it acts on the database or the outbox.
    Controller methods are computations in a state-and-exception monad, so
    that [try { ... } catch (error) { rollback; throw error }] reads the same
    way here as in the controller. *)

From Stdlib Require Import List String Ascii Bool NArith Arith Lia DecimalString.
Import ListNotations.
Open Scope string_scope.
Open Scope N_scope.

(** ** Strings *)

(** JavaScript strings are read as sequences of code units below 256. *)
Definition code (c : ascii) : N := N_of_ascii c.

Definition chr (n : N) : ascii := ascii_of_N n.

Definition str1 (c : ascii) : string := String c EmptyString.

(** The double quote, the line feed and the tab of the string templates. *)
Definition dquote : string := str1 (chr 34).
Definition nl : string := str1 (chr 10).
Definition tab : string := str1 (chr 9).

(** ** Regular expressions: the fragment [emailRegExp] is written in *)

Module RegExp.

Inductive t : Type :=
| Void
| Eps
| Class (p : ascii -> bool)
| Seq (r1 r2 : t)
| Alt (r1 r2 : t)
| Star (r : t).

Fixpoint nullable (r : t) : bool :=
  match r with
  | Void => false
  | Eps => true
  | Class _ => false
  | Seq r1 r2 => nullable r1 && nullable r2
  | Alt r1 r2 => nullable r1 || nullable r2
  | Star _ => true
  end.

Definition seq (r1 r2 : t) : t :=
  match r1, r2 with
  | Void, _ => Void
  | _, Void => Void
  | Eps, _ => r2
  | _, _ => Seq r1 r2
  end.

Definition alt (r1 r2 : t) : t :=
  match r1, r2 with
  | Void, _ => r2
  | _, Void => r1
  | _, _ => Alt r1 r2
  end.

(** Brzozowski derivative: the words [w] such that [c :: w] matches [r]. *)
Fixpoint deriv (c : ascii) (r : t) : t :=
  match r with
  | Void => Void
  | Eps => Void
  | Class p => if p c then Eps else Void
  | Seq r1 r2 =>
      if nullable r1
      then alt (seq (deriv c r1) r2) (deriv c r2)
      else seq (deriv c r1) r2
  | Alt r1 r2 => alt (deriv c r1) (deriv c r2)
  | Star r1 => seq (deriv c r1) (Star r1)
  end.

(** [matches r s]: the whole of [s] matches [r] (a pattern between [^]
    and [$]). *)
Fixpoint matches (r : t) (s : string) : bool :=
  match s with
  | EmptyString => nullable r
  | String c s' => matches (deriv c r) s'
  end.

Definition lit (c : N) : t := Class (fun a => N.eqb (code a) c).

(** [r+] *)
Definition plus (r : t) : t := Seq r (Star r).

(** [r?] *)
Definition opt (r : t) : t := Alt Eps r.

(** [r{1,3}] *)
Definition rep_1_3 (r : t) : t := Seq r (opt (Seq r (opt r))).

(** [r{2,}] *)
Definition rep_2_ (r : t) : t := Seq r (Seq r (Star r)).

Definition between (lo hi : N) (a : ascii) : bool :=
  N.leb lo (code a) && N.leb (code a) hi.

Definition one_of (l : list N) (a : ascii) : bool :=
  existsb (N.eqb (code a)) l.

(** [\s] on code units below 256: tab, line feed, vertical tab, form
    feed, carriage return, space and the no-break space. *)
Definition space (a : ascii) : bool := one_of [9; 10; 11; 12; 13; 32; 160] a.

(** [.]: any code unit but the line terminators. *)
Definition dot (a : ascii) : bool := negb (one_of [10; 13] a).

End RegExp.

(** The negated class of the local part: any code unit but the angle
    brackets, the parentheses, the square brackets, the backslash, the
    period, the comma, the semicolon, the colon, whitespace, the at sign
    and the double quote. *)
Definition atom_char (a : ascii) : bool :=
  negb (RegExp.one_of [60; 62; 40; 41; 91; 93; 92; 46; 44; 59; 58; 64; 34] a
        || RegExp.space a).

Definition digit (a : ascii) : bool := RegExp.between 48 57 a.

(** The class a-z A-Z. *)
Definition alpha (a : ascii) : bool :=
  RegExp.between 97 122 a || RegExp.between 65 90 a.

(** The class a-z A-Z hyphen 0-9. *)
Definition label_char (a : ascii) : bool :=
  alpha a || RegExp.one_of [45] a || digit a.

(** The pattern of [register], between its anchors: a local part that is
    either one or more atoms separated by single periods or a quoted run of
    one or more characters; the at sign; then either a bracketed literal of
    four groups of one to three digits separated by periods, or one or more
    labels each followed by a period and then two or more letters. *)
Definition emailRegExp : RegExp.t :=
  let atoms := RegExp.plus (RegExp.Class atom_char) in
  let period := RegExp.lit 46 in
  let quote := RegExp.lit 34 in
  let octet := RegExp.rep_1_3 (RegExp.Class digit) in
  let local_part :=
    RegExp.Alt
      (RegExp.Seq atoms (RegExp.Star (RegExp.Seq period atoms)))
      (RegExp.Seq quote (RegExp.Seq (RegExp.plus (RegExp.Class RegExp.dot)) quote)) in
  let address_literal :=
    RegExp.Seq (RegExp.lit 91)
      (RegExp.Seq octet (RegExp.Seq period
      (RegExp.Seq octet (RegExp.Seq period
      (RegExp.Seq octet (RegExp.Seq period
      (RegExp.Seq octet (RegExp.lit 93)))))))) in
  let host_name :=
    RegExp.Seq
      (RegExp.plus (RegExp.Seq (RegExp.plus (RegExp.Class label_char)) period))
      (RegExp.rep_2_ (RegExp.Class alpha)) in
  RegExp.Seq local_part
    (RegExp.Seq (RegExp.lit 64) (RegExp.Alt address_literal host_name)).

(** [emailRegExp.test(s)] *)
Definition test (r : RegExp.t) (s : string) : bool := RegExp.matches r s.

(** ** Data model *)

(** Primary keys. *)
Definition Id : Type := N.

(** An entity that was never saved has no key yet. *)
Definition id_eqb (a b : option Id) : bool :=
  match a, b with
  | Some x, Some y => N.eqb x y
  | None, None => true
  | _, _ => false
  end.

(** [`${id}`] *)
Definition show_id (a : option Id) : string :=
  match a with
  | Some n => DecimalString.NilZero.string_of_uint (N.to_uint n)
  | None => "undefined"
  end.

Module User.

(** Modelled from the spec: the entity class [User] of [model/User], whose
    declaration is not part of the sources. Its attributes are the ones
    the controller reads and writes; the activation flag is false until
    activation. *)
Record t : Type := make {
  _id : option Id;
  given_name : string;
  maiden_name : string;
  email_address : string;
  password : string;
  is_activated : bool
}.

(** [new User()] *)
Definition new : t := make None EmptyString EmptyString EmptyString EmptyString false.

Definition set__id (v : option Id) (u : t) : t :=
  make v (given_name u) (maiden_name u) (email_address u) (password u) (is_activated u).

Definition set_given_name (v : string) (u : t) : t :=
  make (_id u) v (maiden_name u) (email_address u) (password u) (is_activated u).

Definition set_maiden_name (v : string) (u : t) : t :=
  make (_id u) (given_name u) v (email_address u) (password u) (is_activated u).

Definition set_email_address (v : string) (u : t) : t :=
  make (_id u) (given_name u) (maiden_name u) v (password u) (is_activated u).

Definition set_password (v : string) (u : t) : t :=
  make (_id u) (given_name u) (maiden_name u) (email_address u) v (is_activated u).

Definition set_is_activated (v : bool) (u : t) : t :=
  make (_id u) (given_name u) (maiden_name u) (email_address u) (password u) v.

End User.

Module Token.

(** Modelled from the spec: the entity class [Token] of [model/Token],
    whose declaration is not part of the sources: a key and the key of the
    owning user. *)
Record t : Type := make {
  _id : option Id;
  user_id : option Id
}.

(** [new Token()] *)
Definition new : t := make None None.

Definition set__id (v : option Id) (k : t) : t := make v (user_id k).

Definition set_user_id (v : option Id) (k : t) : t := make (_id k) v.

End Token.

(** [const { password, ...payload } = user] *)
Record Payload : Type := mkPayload {
  payload__id : option Id;
  payload_given_name : string;
  payload_maiden_name : string;
  payload_email_address : string;
  payload_is_activated : bool
}.

Definition without_password (user : User.t) : Payload :=
  mkPayload (User._id user) (User.given_name user) (User.maiden_name user)
            (User.email_address user) (User.is_activated user).

(** The message handed to [SendGridMail.send]. *)
Record Mail : Type := mkMail {
  mail_to : string;
  mail_from : string;
  mail_subject : string;
  mail_html : string
}.

(** ** Exceptions *)

(** Calls on collaborators, as they appear in a trace. *)
Inductive Call : Type :=
| StartTransaction
| Commit
| Rollback
| FindOneUser (email_address : string)
| FindOneToken (id : Id)
| SaveUser (user : User.t)
| SaveToken (token : Token.t)
| RemoveToken (token : Token.t)
| Send (message : Mail).

(** What a controller method can throw: the two classes it imports from
    ts-httpexceptions, and whatever a collaborator threw. *)
Inductive Exception : Type :=
| BadRequest (message : string)
| NotFound (message : string)
| Failed (call : Call).

Definition is_NotFound (e : Exception) : bool :=
  match e with NotFound _ => true | _ => false end.

(** ** The persistent store *)

Module Database.

(** Modelled from the spec: the storage behind the persistence gateway,
    which is not part of the sources: two tables of rows in insertion
    order and the generator of primary keys. *)
Record t : Type := make {
  users : list User.t;
  tokens : list Token.t;
  next_id : Id
}.

Definition empty : t := make [] [] 1.

Definition has_email (email_address : string) (u : User.t) : bool :=
  String.eqb (User.email_address u) email_address.

Definition user_has_id (k : option Id) (u : User.t) : bool := id_eqb (User._id u) k.

Definition token_has_id (k : option Id) (x : Token.t) : bool := id_eqb (Token._id x) k.

(** [findOne(User, { email_address })] *)
Definition find_user (email_address : string) (d : t) : option User.t :=
  find (has_email email_address) (users d).

(** [findOne(Token, id)] *)
Definition find_token (id : Id) (d : t) : option Token.t :=
  find (token_has_id (Some id)) (tokens d).

(** [save(user)]: insert under a new key when the entity has none (or
    names a row that does not exist), update the row of its key
    otherwise. *)
Definition save_user (u : User.t) (d : t) : User.t * t :=
  match User._id u with
  | None =>
      let u' := User.set__id (Some (next_id d)) u in
      (u', make (users d ++ [u']) (tokens d) (N.succ (next_id d)))
  | Some _ =>
      if existsb (user_has_id (User._id u)) (users d)
      then (u, make (map (fun r => if user_has_id (User._id u) r then u else r) (users d))
                    (tokens d) (next_id d))
      else (u, make (users d ++ [u]) (tokens d) (next_id d))
  end.

(** [save(token)] *)
Definition save_token (x : Token.t) (d : t) : Token.t * t :=
  match Token._id x with
  | None =>
      let x' := Token.set__id (Some (next_id d)) x in
      (x', make (users d) (tokens d ++ [x']) (N.succ (next_id d)))
  | Some _ =>
      if existsb (token_has_id (Token._id x)) (tokens d)
      then (x, make (users d)
                    (map (fun r => if token_has_id (Token._id x) r then x else r) (tokens d))
                    (next_id d))
      else (x, make (users d) (tokens d ++ [x]) (next_id d))
  end.

(** [remove(Token, token)]: delete the row of the entity's key. *)
Definition remove_token (x : Token.t) (d : t) : t :=
  make (users d)
       (filter (fun r => negb (token_has_id (Token._id x) r)) (tokens d))
       (next_id d).

End Database.

(** ** The world a request runs in *)

Record World : Type := mkWorld {
  db : Database.t;                 (* what the entity manager reads and writes *)
  snapshot : option Database.t;    (* the store as it was when the open transaction began *)
  outbox : list Mail;              (* messages accepted by the mail service *)
  trace : list Call;               (* every call made on a collaborator, oldest first *)
  faults : list bool;              (* whether the next calls throw; none left: no call throws *)
  entropy : N                      (* the source of bcrypt salts *)
}.

Definition initial : World := mkWorld Database.empty None [] [] [] 0.

Definition set_db (d : Database.t) (w : World) : World :=
  mkWorld d (snapshot w) (outbox w) (trace w) (faults w) (entropy w).

Definition set_snapshot (s : option Database.t) (w : World) : World :=
  mkWorld (db w) s (outbox w) (trace w) (faults w) (entropy w).

Definition set_outbox (o : list Mail) (w : World) : World :=
  mkWorld (db w) (snapshot w) o (trace w) (faults w) (entropy w).

Definition set_trace (c : list Call) (w : World) : World :=
  mkWorld (db w) (snapshot w) (outbox w) c (faults w) (entropy w).

Definition set_faults (f : list bool) (w : World) : World :=
  mkWorld (db w) (snapshot w) (outbox w) (trace w) f (entropy w).

Definition set_entropy (n : N) (w : World) : World :=
  mkWorld (db w) (snapshot w) (outbox w) (trace w) (faults w) n.

(** ** Computations that read and write the world and may throw *)

Inductive Result (A : Type) : Type :=
| Return (a : A)
| Throw (e : Exception).

Arguments Return {A} a.
Arguments Throw {A} e.

Definition M (A : Type) : Type := World -> Result A * World.

Definition ret {A} (a : A) : M A := fun w => (Return a, w).

Definition throw {A} (e : Exception) : M A := fun w => (Throw e, w).

Definition bind {A B} (m : M A) (k : A -> M B) : M B :=
  fun w =>
    match m w with
    | (Return a, w') => k a w'
    | (Throw e, w') => (Throw e, w')
    end.

(** [try { m } catch (error) { h error }] *)
Definition try_catch {A} (m : M A) (h : Exception -> M A) : M A :=
  fun w =>
    match m w with
    | (Return a, w') => (Return a, w')
    | (Throw e, w') => h e w'
    end.

Declare Scope monad_scope.
Delimit Scope monad_scope with monad.
Notation "x <- m ;; k" := (bind m (fun x => k))
  (at level 61, m at next level, right associativity) : monad_scope.
Notation "m ;; k" := (bind m (fun _ => k))
  (at level 61, right associativity) : monad_scope.
Open Scope monad_scope.

(** Whether the call being made throws, by the fault script. *)
Definition faulty (w : World) : bool := hd false (faults w).

(** The world once a call has been made: the call is in the trace and its
    entry of the fault script is used up. *)
Definition called (c : Call) (w : World) : World :=
  set_faults (tl (faults w)) (set_trace (trace w ++ [c]) w).

(** [await collaborator.call(...)]: the call is traced; it throws when the
    fault script says so and acts on the world otherwise. *)
Definition await {A} (c : Call) (act : World -> A * World) : M A :=
  fun w =>
    if faulty w
    then (Throw (Failed c), called c w)
    else let (a, w') := act (called c w) in (Return a, w').

(** ** Collaborators *)

(** bcrypt, jsonwebtoken and the two configuration constants, none of which
    is part of the sources. [bcrypt data rounds salt] is the digest that
    [hashSync(data, rounds)] returns when it draws [salt]; a digest verifies
    against the data it was made from. *)
Class Platform : Type := {
  bcrypt : string -> N -> N -> string;
  compareSync : string -> string -> bool;
  compareSync_bcrypt :
    forall data rounds salt, compareSync data (bcrypt data rounds salt) = true;
  sign : Payload -> string -> string;
  jwt_secret : string;      (* PassportConfig.jwt.secret *)
  baseURL : string          (* ServerConfig.baseURL *)
}.

(** [hashSync(data, rounds)]: the salt is fresh at every call. *)
Definition hashSync {platform : Platform} (data : string) (rounds : N) : M string :=
  fun w => (Return (bcrypt data rounds (entropy w)), set_entropy (N.succ (entropy w)) w).

Module DatabaseService.

(** Modelled from the spec: [DatabaseService.startTransaction], whose
    source is not available; the standard unit of work: remember the store
    as it is. *)
Definition startTransaction : M unit :=
  await StartTransaction (fun w => (tt, set_snapshot (Some (db w)) w)).

(** Modelled from the spec: [DatabaseService.commit]: keep the writes. *)
Definition commit : M unit :=
  await Commit (fun w => (tt, set_snapshot None w)).

(** Modelled from the spec: [DatabaseService.rollback]: put the store
    back as it was when the transaction began. *)
Definition rollback : M unit :=
  await Rollback
    (fun w =>
       match snapshot w with
       | Some d => (tt, set_snapshot None (set_db d w))
       | None => (tt, w)
       end).

End DatabaseService.

Module Manager.

(** Modelled from the spec: the entity manager's [findOne], [save] and
    [remove], as the persistence gateway's contract gives them. *)
Definition findOne_User (email_address : string) : M (option User.t) :=
  await (FindOneUser email_address)
        (fun w => (Database.find_user email_address (db w), w)).

Definition findOne_Token (id : Id) : M (option Token.t) :=
  await (FindOneToken id) (fun w => (Database.find_token id (db w), w)).

Definition save_User (user : User.t) : M User.t :=
  await (SaveUser user)
        (fun w =>
           let saved := Database.save_user user (db w) in
           (fst saved, set_db (snd saved) w)).

Definition save_Token (token : Token.t) : M Token.t :=
  await (SaveToken token)
        (fun w =>
           let saved := Database.save_token token (db w) in
           (fst saved, set_db (snd saved) w)).

Definition remove_Token (token : Token.t) : M unit :=
  await (RemoveToken token)
        (fun w => (tt, set_db (Database.remove_token token (db w)) w)).

End Manager.

Module SendGridMail.

Definition send (message : Mail) : M unit :=
  await (Send message) (fun w => (tt, set_outbox (outbox w ++ [message]) w)).

End SendGridMail.

(** ** The controller *)

Module AuthenticationController.

Import DatabaseService Manager.

Record SignInBody : Type := mkSignInBody {
  signIn_email_address : string;
  signIn_password : string
}.

Record RegisterBody : Type := mkRegisterBody {
  register_given_name : string;
  register_maiden_name : string;
  register_email_address : string;
  register_password : string;
  register_password_confirmation : string
}.

Record ActivateBody : Type := mkActivateBody {
  activate_email_address : string;
  activate_token : Id
}.

Record ForgetPasswordBody : Type := mkForgetPasswordBody {
  forgetPassword_email_address : string
}.

Record RecoverBody : Type := mkRecoverBody {
  recover_email_address : string;
  recover_token : Id;
  recover_password : string;
  recover_password_confirmation : string
}.

Record SignInResponse : Type := mkSignInResponse { token : string }.

Definition sign_in_failed : string :=
  "Sign in failed! Please check your email address or password.".

Definition no_account (email_address : string) : string :=
  "There is no account registered with email address " ++ email_address ++ ".".

Definition not_an_email (email_address : string) : string :=
  "Registration failed. Email address " ++ dquote ++ email_address ++ dquote
  ++ " is not a valid email address.".

Definition already_registered (email_address : string) : string :=
  "User with email address " ++ email_address ++ " is already registered.".

Definition no_match : string := "Your password did not match confirmation.".

Definition bad_activation_token : string :=
  "Your activation token is invalid. Please re-check your activation link!".

Definition bad_recovery_token : string :=
  "Your recovery token is invalid. Please re-check your activation link!".

Definition registered : string :=
  "You are successfully registered. Please check your email inbox to activate your account.".

Definition activated : string :=
  "Your account has been successfully activated. You now may sign in to enjoy our services.".

Definition recovery_sent : string :=
  "A recovery email has been sent to your email address. Please check your email inbox to recover your account.".

Definition recovered : string :=
  "Your account has been successfully recovered. You now may sign in with newly created passwords.".

Definition noreply : string := "noreply@mycashier.pw".

Definition closing : string :=
  "<br /><br />" ++ nl ++ tab ++ "Regards,<br />" ++ nl ++ tab
  ++ "MyCashier Operation Team" ++ nl ++ "</div>" ++ nl.

Definition greeting (given_name : string) : string :=
  nl ++ "<div>" ++ nl ++ tab ++ "Hi, " ++ given_name ++ "!<br /><br />" ++ nl ++ tab.

Definition anchor (link : string) : string :=
  "<a href=" ++ dquote ++ link ++ dquote ++ ">" ++ link ++ "</a>".

Section Methods.

Context {platform : Platform}.

(** [ServerConfig.baseURL + `activate?email_address=...&token=...`] *)
Definition link_to (user : User.t) (token : Token.t) : string :=
  baseURL ++ "activate?email_address=" ++ User.email_address user
  ++ "&token=" ++ show_id (Token._id token).

Definition activation_mail (user : User.t) (activationLink : string) : Mail :=
  mkMail (User.email_address user) noreply "Active your MyCashier account!"
    (greeting (User.given_name user)
     ++ "Welcome to MyCashier! Please active your account by clicking on this link: "
     ++ anchor activationLink ++ closing).

Definition welcome_mail (user : User.t) : Mail :=
  mkMail (User.email_address user) noreply "Welcome to MyCashier!"
    (greeting (User.given_name user)
     ++ "Welcome to MyCashier! Your account has been successfully activated. You now may sign in to enjoy our services."
     ++ closing).

Definition recovery_mail (user : User.t) (recoverLink : string) : Mail :=
  mkMail (User.email_address user) noreply "Recover your MyCashier account"
    (greeting (User.given_name user)
     ++ "To recover your MyCashier account, please click this link: "
     ++ anchor recoverLink ++ closing).

Definition signIn (body : SignInBody) : M SignInResponse :=
  user <- findOne_User (signIn_email_address body) ;;
  match user with
  | None => throw (BadRequest sign_in_failed)
  | Some user =>
      if compareSync (signIn_password body) (User.password user)
      then throw (BadRequest sign_in_failed)
      else
        let payload := without_password user in
        let token := sign payload jwt_secret in
        ret (mkSignInResponse token)
  end.

Definition register (body : RegisterBody) : M string :=
  try_catch
    (startTransaction ;;
     if negb (test emailRegExp (register_email_address body))
     then throw (BadRequest (not_an_email (register_email_address body)))
     else
       user <- findOne_User (register_email_address body) ;;
       match user with
       | Some _ =>
           throw (BadRequest (already_registered (register_email_address body)))
       | None =>
           if negb (String.eqb (register_password body)
                               (register_password_confirmation body))
           then throw (BadRequest no_match)
           else
             let user := User.new in
             let user := User.set_given_name (register_given_name body) user in
             let user := User.set_maiden_name (register_maiden_name body) user in
             let user := User.set_email_address (register_email_address body) user in
             digest <- hashSync (register_password body) 10 ;;
             let user := User.set_password digest user in
             user <- save_User user ;;
             let token := Token.new in
             let token := Token.set_user_id (User._id user) token in
             token <- save_Token token ;;
             let activationLink := link_to user token in
             let message := activation_mail user activationLink in
             SendGridMail.send message ;;
             commit ;;
             ret registered
       end)
    (fun error => rollback ;; throw error).

Definition activate (body : ActivateBody) : M string :=
  try_catch
    (startTransaction ;;
     user <- findOne_User (activate_email_address body) ;;
     match user with
     | None => throw (BadRequest (no_account (activate_email_address body)))
     | Some user =>
         token <- findOne_Token (activate_token body) ;;
         match token with
         | None => throw (BadRequest bad_activation_token)
         | Some token =>
             if negb (id_eqb (Token.user_id token) (User._id user))
             then throw (BadRequest bad_activation_token)
             else
               let user := User.set_is_activated true user in
               user <- save_User user ;;
               remove_Token token ;;
               let message := welcome_mail user in
               SendGridMail.send message ;;
               commit ;;
               ret activated
         end
     end)
    (fun error => rollback ;; throw error).

Definition forgetPassword (body : ForgetPasswordBody) : M string :=
  try_catch
    (startTransaction ;;
     user <- findOne_User (forgetPassword_email_address body) ;;
     match user with
     | None => throw (BadRequest (no_account (forgetPassword_email_address body)))
     | Some user =>
         let token := Token.new in
         let token := Token.set_user_id (User._id user) token in
         token <- save_Token token ;;
         let recoverLink := link_to user token in
         let message := recovery_mail user recoverLink in
         SendGridMail.send message ;;
         commit ;;
         ret recovery_sent
     end)
    (fun error => rollback ;; throw error).

Definition recover (body : RecoverBody) : M string :=
  try_catch
    (startTransaction ;;
     user <- findOne_User (recover_email_address body) ;;
     match user with
     | None => throw (BadRequest (no_account (recover_email_address body)))
     | Some user =>
         token <- findOne_Token (recover_token body) ;;
         match token with
         | None => throw (BadRequest bad_recovery_token)
         | Some token =>
             if negb (id_eqb (Token.user_id token) (User._id user))
             then throw (BadRequest bad_recovery_token)
             else
               if negb (String.eqb (recover_password body)
                                   (recover_password_confirmation body))
               then throw (BadRequest no_match)
               else
                 digest <- hashSync (recover_password body) 10 ;;
                 let user := User.set_password digest user in
                 user <- save_User user ;;
                 remove_Token token ;;
                 commit ;;
                 ret recovered
         end
     end)
    (fun error => rollback ;; throw error).

End Methods.

End AuthenticationController.

(** ** A platform to run the controller on *)

Module Demo.

(** A transparent stand-in for bcrypt: the digest shows the data. *)
Definition digest_of (data : string) (rounds salt : N) : string := "$2b$" ++ data.

Definition verify (data digest : string) : bool := String.eqb ("$2b$" ++ data) digest.

#[export] Instance platform : Platform := {|
  bcrypt := digest_of;
  compareSync := verify;
  compareSync_bcrypt := fun data _ _ => String.eqb_refl ("$2b$" ++ data);
  sign := fun payload secret => secret ++ "." ++ payload_email_address payload;
  jwt_secret := "secret";
  baseURL := "https://mycashier.pw/"
|}.

Import AuthenticationController.

Definition ann : RegisterBody :=
  mkRegisterBody "Ann" "Lee" "ann@x.com" "Secret123!" "Secret123!".

Definition bob : RegisterBody :=
  mkRegisterBody "Bob" "Ray" "bob@x.com" "hunter2" "hunter2".

(** The world after Ann registered. *)
Definition ann_registered : World := snd (register ann initial).

(** The world after Ann, then Bob, registered. *)
Definition both_registered : World := snd (register bob ann_registered).

(** Ann's row, once registered. *)
Definition ann_user : User.t :=
  User.make (Some 1) "Ann" "Lee" "ann@x.com" "$2b$Secret123!" false.

(** The Token made by Ann's registration and the one made by Bob's. *)
Definition ann_token : Token.t := Token.make (Some 2) (Some 1).
Definition bob_token : Token.t := Token.make (Some 4) (Some 3).

(** The world after Ann registered and then forgot her password. *)
Definition ann_forgot : World :=
  snd (forgetPassword (mkForgetPasswordBody "ann@x.com") ann_registered).

Definition ann_activates : ActivateBody := mkActivateBody "ann@x.com" 2.

Definition ann_recovers : RecoverBody :=
  mkRecoverBody "ann@x.com" 2 "Fresh456?" "Fresh456?".

Definition ann_mistypes : RegisterBody :=
  mkRegisterBody "Ann" "Lee" "ann@x.com" "a" "b".

End Demo.

(** ** What the properties speak of *)

(** No call on a collaborator throws from [w] on. *)
Definition reliable (w : World) : Prop := faults w = [].

(** Every stored user has a primary key. *)
Definition keyed (d : Database.t) : bool :=
  forallb (fun u => match User._id u with Some _ => true | None => false end)
          (Database.users d).

Module Trace.

Definition opens (c : Call) : bool :=
  match c with StartTransaction => true | _ => false end.

Definition commits (c : Call) : bool :=
  match c with Commit => true | _ => false end.

Definition rolls_back (c : Call) : bool :=
  match c with Rollback => true | _ => false end.

(** The calls that delimit a transaction. *)
Definition delimits (c : Call) : bool := opens c || commits c || rolls_back c.

Definition count (p : Call -> bool) (calls : list Call) : nat :=
  List.length (filter p calls).

(** The first call, if any, satisfies [p]. *)
Definition first_is (p : Call -> bool) (calls : list Call) : bool :=
  match calls with
  | c :: _ => p c
  | [] => false
  end.

(** The last call, if any, satisfies [p]. *)
Definition last_is (p : Call -> bool) (calls : list Call) : bool :=
  first_is p (rev calls).

End Trace.

(** The calls that running [m] from [w] adds to the trace. *)
Definition calls_made {A} (m : M A) (w : World) : list Call :=
  skipn (List.length (trace w)) (trace (snd (m w))).

(** The transaction discipline, on the calls of one run and its result:
    the first call opens a transaction and no later call opens another;
    when the run returns, the last call is the one commit and nothing was
    rolled back; when it throws, the last call before the exception leaves
    is the one rollback. *)
Definition well_bracketed {A} (r : Result A) (calls : list Call) : bool :=
  Trace.first_is Trace.opens calls
  && Nat.eqb (Trace.count Trace.opens calls) 1
  && match r with
     | Return _ =>
         Trace.last_is Trace.commits calls
         && Nat.eqb (Trace.count Trace.commits calls) 1
         && Nat.eqb (Trace.count Trace.rolls_back calls) 0
     | Throw _ =>
         Trace.last_is Trace.rolls_back calls
         && Nat.eqb (Trace.count Trace.rolls_back calls) 1
     end.

(** The run of [m] from [w] keeps the transaction discipline. *)
Definition disciplined {A} (m : M A) (w : World) : bool :=
  well_bracketed (fst (m w)) (calls_made m w).

(** Every run of [m] only adds calls to the trace, and the calls it adds
    keep the transaction discipline. *)
Definition keeps_discipline {A} (m : M A) : Prop :=
  forall w,
    trace (snd (m w)) = (trace w ++ calls_made m w)%list
    /\ disciplined m w = true.

(** The run of [m] from [w] opens, commits and rolls back nothing. *)
Definition transaction_free {A} (m : M A) (w : World) : bool :=
  forallb (fun c => negb (Trace.delimits c)) (calls_made m w).

(** The exception a run threw is of class [NotFound]. *)
Definition throws_NotFound {A} (r : Result A) : bool :=
  match r with
  | Throw e => is_NotFound e
  | Return _ => false
  end.

(** Whether a run returned. *)
Definition returned {A} (r : Result A) : bool :=
  match r with Return _ => true | Throw _ => false end.

(** The store, and the store a rollback would put back, have keyed users. *)
Definition sound (w : World) : bool :=
  keyed (db w)
  && match snapshot w with
     | Some d => keyed d
     | None => true
     end.

(** The world a method leaves when it ran without fault, made [calls]
    and ended on its rollback: the store is the one it started from. *)
Definition rolled_back (calls : list Call) (w : World) : World :=
  mkWorld (db w) None (outbox w) (trace w ++ calls) [] (entropy w).

(** The world a method leaves when it ran without fault, made [calls],
    sent [mails], drew [salts] salts and committed the store [d]. *)
Definition committed (d : Database.t) (mails : list Mail) (calls : list Call)
           (salts : N) (w : World) : World :=
  mkWorld d None (outbox w ++ mails) (trace w ++ calls) [] (entropy w + salts).

(** ** Consistent stores *)

(** No two entries of [l] are equal, by [eqb]. *)
Fixpoint distinct {A} (eqb : A -> A -> bool) (l : list A) : bool :=
  match l with
  | [] => true
  | a :: l' => negb (existsb (eqb a) l') && distinct eqb l'
  end.

(** A key that the generator has handed out already. *)
Definition issued (next : Id) (k : option Id) : bool :=
  match k with
  | Some x => N.ltb x next
  | None => false
  end.

(** A store as the methods build it: no two users share an address or a
    key, no two tokens share a key, and every key in use was handed out by
    the generator. *)
Definition consistent (d : Database.t) : bool :=
  distinct String.eqb (map User.email_address (Database.users d))
  && distinct id_eqb (map User._id (Database.users d))
  && forallb (issued (Database.next_id d)) (map User._id (Database.users d))
  && distinct id_eqb (map Token._id (Database.tokens d))
  && forallb (issued (Database.next_id d)) (map Token._id (Database.tokens d)).

(** The store, and the store a rollback would put back, are consistent. *)
Definition steady (w : World) : bool :=
  consistent (db w)
  && match snapshot w with
     | Some d => consistent d
     | None => true
     end.



(** The exception a run threw, if it threw. *)
Definition thrown {A} (r : Result A) : option Exception :=
  match r with
  | Throw e => Some e
  | Return _ => None
  end.

(** The run threw because its rollback did. *)
Definition rollback_failed {A} (r : Result A) : bool :=
  match r with
  | Throw (Failed Rollback) => true
  | _ => false
  end.

(** The run threw because its commit did. *)
Definition commit_failed {A} (r : Result A) : bool :=
  match r with
  | Throw (Failed Commit) => true
  | _ => false
  end.

(** ** The words of a pattern *)

(** [denotes r s]: the word [s] is one of the words of [r]. *)
Inductive denotes : RegExp.t -> string -> Prop :=
| denotes_eps : denotes RegExp.Eps EmptyString
| denotes_class p c : p c = true -> denotes (RegExp.Class p) (str1 c)
| denotes_seq r1 r2 s1 s2 :
    denotes r1 s1 -> denotes r2 s2 -> denotes (RegExp.Seq r1 r2) (s1 ++ s2)
| denotes_alt_l r1 r2 s : denotes r1 s -> denotes (RegExp.Alt r1 r2) s
| denotes_alt_r r1 r2 s : denotes r2 s -> denotes (RegExp.Alt r1 r2) s
| denotes_star_nil r : denotes (RegExp.Star r) EmptyString
| denotes_star_cons r s1 s2 :
    denotes r s1 -> denotes (RegExp.Star r) s2 -> denotes (RegExp.Star r) (s1 ++ s2).

Definition first_char (s : string) : option ascii :=
  match s with
  | String c _ => Some c
  | EmptyString => None
  end.

Fixpoint last_char (s : string) : option ascii :=
  match s with
  | EmptyString => None
  | String c EmptyString => Some c
  | String _ s' => last_char s'
  end.

(** Every code unit of [s] satisfies [p]. *)
Fixpoint all_chars (p : ascii -> bool) (s : string) : bool :=
  match s with
  | EmptyString => true
  | String c s' => p c && all_chars p s'
  end.

(** ** The application: mounting the services *)

Module App.

(** An entry of [Services], whose declaration is not part of the sources:
    the fields the loop reads. *)
Record Service : Type := mkService {
  endpoint : string;
  method : string;
  useAuth : bool;
  handler : string
}.

Definition set_useAuth (v : bool) (service : Service) : Service :=
  mkService (endpoint service) (method service) v (handler service).

(** A call [router[verb](endpoint, useAuth).handle(Controllers[handler])]. *)
Record Route : Type := mkRoute {
  verb : string;
  path : string;
  guarded : bool;
  controller : string
}.

(** [c.toLowerCase()] on a code unit below 256: the letters A to Z and the
    capital letters of Latin-1, the multiplication sign between them
    apart. *)
Definition lower (c : ascii) : ascii :=
  let n := code c in
  if (N.leb 65 n && N.leb n 90)
     || (N.leb 192 n && N.leb n 222 && negb (N.eqb n 215))
  then chr (n + 32)
  else c.

(** [s.toLowerCase()] *)
Fixpoint toLowerCase (s : string) : string :=
  match s with
  | EmptyString => EmptyString
  | String c s' => String (lower c) (toLowerCase s')
  end.

(** What the loop has built so far. *)
Record Mounted : Type := mkMounted {
  services : list (string * Service);   (* the entries of Services, as the loop leaves them *)
  unprotectedEndpoints : list string;
  logged : list string;                 (* the lines given to logger.i *)
  routes : list Route
}.

Definition nothing_mounted : Mounted := mkMounted [] [] [] [].

(** One turn of [for (const key in Services)]. *)
Definition mount (isActive : bool) (m : Mounted) (entry : string * Service) : Mounted :=
  let key := fst entry in
  let service := snd entry in
  let protectionString := "." in
  let '(unprotected, protectionString, service) :=
    if isActive
    then
      if negb (useAuth service)
      then ((unprotectedEndpoints m ++ [endpoint service])%list, protectionString, service)
      else (unprotectedEndpoints m, " [PROTECTED]" ++ protectionString, service)
    else (unprotectedEndpoints m, protectionString, set_useAuth false service) in
  let line :=
    "Added " ++ key ++ " service on endpoint " ++ method service ++ " "
    ++ endpoint service ++ protectionString in
  let route :=
    mkRoute (toLowerCase (method service)) (endpoint service) (useAuth service)
            (handler service) in
  mkMounted (services m ++ [(key, service)])%list
            unprotected
            (logged m ++ [line])%list
            (routes m ++ [route])%list.

(** The loop over the own properties of [Services], in their order, and
    the line logged after it. *)
Definition mount_all (isActive : bool) (Services : list (string * Service)) : Mounted :=
  let m := fold_left (mount isActive) Services nothing_mounted in
  mkMounted (services m) (unprotectedEndpoints m)
            (logged m ++ ["Added Main service to endpoint *."])%list
            (routes m).

(** [process.env.PORT || 9000]: the variable when it is set and not empty. *)
Definition port (PORT : option string) : string + N :=
  match PORT with
  | Some (String c s) => inl (String c s)
  | _ => inr 9000
  end.

(** The line a service is logged with, given the protection it got. *)
Definition line_of (key : string) (service : Service) (protected : bool) : string :=
  "Added " ++ key ++ " service on endpoint " ++ method service ++ " "
  ++ endpoint service ++ (if protected then " [PROTECTED]." else ".").

(** The entry, the line and the route of one turn of the loop. *)
Definition entry_after (isActive : bool) (entry : string * Service) : string * Service :=
  (fst entry, if isActive then snd entry else set_useAuth false (snd entry)).

Definition route_after (isActive : bool) (entry : string * Service) : Route :=
  mkRoute (toLowerCase (method (snd entry))) (endpoint (snd entry))
          (isActive && useAuth (snd entry)) (handler (snd entry)).

Definition line_after (isActive : bool) (entry : string * Service) : string :=
  line_of (fst entry) (snd entry) (isActive && useAuth (snd entry)).

Definition open_after (isActive : bool) (Services : list (string * Service)) : list string :=
  if isActive
  then map endpoint (filter (fun service => negb (useAuth service)) (map snd Services))
  else [].

(** No code unit of [s] is a capital letter. *)
Definition lowercase (s : string) : bool := String.eqb (toLowerCase s) s.

End App.

(** ** The earlier handlers: registerUser and signInUser *)

(** [s.trimStart()], on code units below 256. *)
Fixpoint trimStart (s : string) : string :=
  match s with
  | EmptyString => EmptyString
  | String c s' => if RegExp.space c then trimStart s' else s
  end.

(** [s.trimEnd()] *)
Fixpoint trimEnd (s : string) : string :=
  match s with
  | EmptyString => EmptyString
  | String c s' =>
      match trimEnd s' with
      | EmptyString => if RegExp.space c then EmptyString else str1 c
      | rest => String c rest
      end
  end.

(** [s.trim()] *)
Definition trim (s : string) : string := trimEnd (trimStart s).

Module Legacy.

(** [IUser] of model/IUser, whose declaration is not part of the sources:
    the fields of the object literal that registerUser builds. *)
Record IUser : Type := mkIUser {
  _id : Id;
  given_name : string;
  maiden_name : string;
  email_address : string;
  password : string;
  created_at : N;
  updated_at : option N
}.

(** [const { password, ...signedUser } = user] *)
Record ISignedUser : Type := mkISignedUser {
  signed__id : Id;
  signed_given_name : string;
  signed_maiden_name : string;
  signed_email_address : string;
  signed_created_at : N;
  signed_updated_at : option N
}.

Definition without_password (user : IUser) : ISignedUser :=
  mkISignedUser (_id user) (given_name user) (maiden_name user) (email_address user)
                (created_at user) (updated_at user).

(** What a success replies with. *)
Inductive Payload : Type :=
| Message (text : string)
| Token (token : string).

(** The calls a handler makes on its helpers and on the model. *)
Inductive Call : Type :=
| ValidateRequest (body : list string)
| Initialise
| StartTransaction
| FetchOne (email_address : string)
| Create (user : IUser)
| Commit
| Rollback
| Close
| SendErrorResponse
| SendSuccessResponse.

(** What is thrown and caught: the errors made by [craftError] and
    whatever a helper or the model threw. *)
Inductive Error : Type :=
| Crafted (message : string) (status : N)
| Failed (call : Call).

(** The replies of the express helpers. *)
Inductive Reply : Type :=
| ErrorResponse (error : Error)
| SuccessResponse (payload : Payload).

Record World : Type := mkWorld {
  rows : list IUser;               (* the users the model reads and writes *)
  snapshot : option (list IUser);  (* the rows as they were when the transaction began *)
  replies : list Reply;            (* the responses sent *)
  trace : list Call;               (* every call made, oldest first *)
  faults : list bool;              (* whether the next calls throw *)
  entropy : N;                     (* the source of identifiers and salts *)
  clock : N                        (* what new Date().getTime() reads *)
}.

Definition set_rows (v : list IUser) (w : World) : World :=
  mkWorld v (snapshot w) (replies w) (trace w) (faults w) (entropy w) (clock w).

Definition set_snapshot (v : option (list IUser)) (w : World) : World :=
  mkWorld (rows w) v (replies w) (trace w) (faults w) (entropy w) (clock w).

Definition set_replies (v : list Reply) (w : World) : World :=
  mkWorld (rows w) (snapshot w) v (trace w) (faults w) (entropy w) (clock w).

Definition set_trace (v : list Call) (w : World) : World :=
  mkWorld (rows w) (snapshot w) (replies w) v (faults w) (entropy w) (clock w).

Definition set_faults (v : list bool) (w : World) : World :=
  mkWorld (rows w) (snapshot w) (replies w) (trace w) v (entropy w) (clock w).

Definition set_entropy (v : N) (w : World) : World :=
  mkWorld (rows w) (snapshot w) (replies w) (trace w) (faults w) v (clock w).

Inductive Outcome (A : Type) : Type :=
| Done (a : A)
| Raise (e : Error).

Arguments Done {A} a.
Arguments Raise {A} e.

Definition L (A : Type) : Type := World -> Outcome A * World.

Definition ret {A} (a : A) : L A := fun w => (Done a, w).

Definition bind {A B} (m : L A) (k : A -> L B) : L B :=
  fun w =>
    match m w with
    | (Done a, w') => k a w'
    | (Raise e, w') => (Raise e, w')
    end.

(** [try { m } catch (error) { h error } finally { closing }]: the closing
    block runs on every way out, and what it throws replaces the rest. *)
Definition try_catch_finally {A} (m : L A) (h : Error -> L A) (closing : L unit) : L A :=
  fun w =>
    let (r, w1) :=
      match m w with
      | (Done a, w') => (Done a, w')
      | (Raise e, w') => h e w'
      end in
    match closing w1 with
    | (Done _, w2) => (r, w2)
    | (Raise e, w2) => (Raise e, w2)
    end.

(** A call on a helper or on the model: traced, throwing when the fault
    script says so, acting otherwise. *)
Definition call {A} (c : Call) (act : World -> A * World) : L A :=
  fun w =>
    let w1 := set_faults (tl (faults w)) (set_trace (trace w ++ [c]) w) in
    if hd false (faults w)
    then (Raise (Failed c), w1)
    else let (a, w') := act w1 in (Done a, w').

Definition validateRequest (body : list string) : L unit :=
  call (ValidateRequest body) (fun w => (tt, w)).

Definition sendErrorResponse (error : Error) : L unit :=
  call SendErrorResponse
       (fun w => (tt, set_replies (replies w ++ [ErrorResponse error]) w)).

Definition sendSuccessResponse (payload : Payload) : L unit :=
  call SendSuccessResponse
       (fun w => (tt, set_replies (replies w ++ [SuccessResponse payload]) w)).

(** The model that [getModel(ModelChoice.User)] returns, whose source is
    not available: a table of users under a unit of work. *)
Definition initialise : L unit := call Initialise (fun w => (tt, w)).

Definition close : L unit := call Close (fun w => (tt, w)).

Definition startTransaction : L unit :=
  call StartTransaction (fun w => (tt, set_snapshot (Some (rows w)) w)).

Definition commit : L unit := call Commit (fun w => (tt, set_snapshot None w)).

Definition rollback : L unit :=
  call Rollback
       (fun w =>
          match snapshot w with
          | Some saved => (tt, set_snapshot None (set_rows saved w))
          | None => (tt, w)
          end).

Definition fetchOne (email : string) : L (option IUser) :=
  call (FetchOne email)
       (fun w => (find (fun u => String.eqb (email_address u) email) (rows w), w)).

Definition create (user : IUser) : L IUser :=
  call (Create user) (fun w => (user, set_rows (rows w ++ [user]) w)).

(** [UUID.generateShort()] *)
Definition generateShort : L Id :=
  fun w => (Done (entropy w), set_entropy (N.succ (entropy w)) w).

(** [new Date().getTime()] *)
Definition getTime : L N := fun w => (Done (clock w), w).

(** [bcrypt.hashSync(data, rounds)] *)
Definition hashSync {platform : Platform} (data : string) (rounds : N) : L string :=
  fun w => (Done (bcrypt data rounds (entropy w)), set_entropy (N.succ (entropy w)) w).

(** jsonwebtoken and [JWTConfig.secretKey], neither part of the sources. *)
Class Signer : Type := {
  jwt_sign : ISignedUser -> string -> string;
  secretKey : string
}.

Record RegisterRequest : Type := mkRegisterRequest {
  register_given_name : string;
  register_maiden_name : string;
  register_email_address : string;
  register_password : string
}.

Record SignInRequest : Type := mkSignInRequest {
  signIn_email_address : string;
  signIn_password : string
}.

Definition invalid_address (email : string) : string :=
  "Registration failed. Email address " ++ email ++ " is not a valid email address.".

Definition taken_address (email : string) : string :=
  "Registration failed. Email address " ++ email ++ " has already been registered.".

Definition welcome (user : IUser) : string :=
  "Successfully registered " ++ given_name user ++ " " ++ maiden_name user ++ ".".

Definition sign_in_failed : string :=
  "Sign in failed! Please check your email address or password.".

Section Handlers.

Context {platform : Platform} {signer : Signer}.

Notation "x <- m ;; k" := (bind m (fun x => k))
  (at level 61, m at next level, right associativity).
Notation "m ;; k" := (bind m (fun _ => k))
  (at level 61, right associativity).

Definition registerUser (request : RegisterRequest) : L unit :=
  try_catch_finally
    (validateRequest ["given_name"; "maiden_name"; "email_address"; "password"] ;;
     if negb (test emailRegExp (trim (register_email_address request)))
     then
       sendErrorResponse
         (Crafted (invalid_address (register_email_address request)) 400)
     else
       initialise ;;
       startTransaction ;;
       shortUUID <- generateShort ;;
       user <- fetchOne (register_email_address request) ;;
       match user with
       | Some _ =>
           sendErrorResponse
             (Crafted (taken_address (register_email_address request)) 400)
       | None =>
           digest <- hashSync (register_password request) 10 ;;
           now <- getTime ;;
           let user :=
             mkIUser shortUUID (register_given_name request)
                     (register_maiden_name request) (register_email_address request)
                     digest now None in
           user <- create user ;;
           commit ;;
           sendSuccessResponse (Message (welcome user))
       end)
    (fun error => rollback ;; sendErrorResponse error)
    close.

Definition signInUser (request : SignInRequest) : L unit :=
  try_catch_finally
    (validateRequest ["email_address"; "password"] ;;
     initialise ;;
     startTransaction ;;
     user <- fetchOne (signIn_email_address request) ;;
     match user with
     | None => sendErrorResponse (Crafted sign_in_failed 400)
     | Some user =>
         if negb (compareSync (signIn_password request) (password user))
         then sendErrorResponse (Crafted sign_in_failed 400)
         else
           let signedUser := without_password user in
           let token := jwt_sign signedUser secretKey in
           commit ;;
           sendSuccessResponse (Token token)
     end)
    (fun error => rollback ;; sendErrorResponse error)
    close.

End Handlers.

(** No helper and no call on the model throws from [w] on. *)
Definition reliable (w : World) : Prop := faults w = [].

(** The calls that running [m] from [w] adds to the trace. *)
Definition calls_made {A} (m : L A) (w : World) : list Call :=
  skipn (List.length (trace w)) (trace (snd (m w))).

(** The responses that running [m] from [w] sends. *)
Definition replies_sent {A} (m : L A) (w : World) : list Reply :=
  skipn (List.length (replies w)) (replies (snd (m w))).

Definition closes (c : Call) : bool :=
  match c with Close => true | _ => false end.

Definition settles (c : Call) : bool :=
  match c with Commit | Rollback => true | _ => false end.

Definition touches_the_model (c : Call) : bool :=
  match c with
  | ValidateRequest _ | SendErrorResponse | SendSuccessResponse | Close => false
  | _ => true
  end.

(** The last call, if any, satisfies [p]. *)
Definition last_is (p : Call -> bool) (calls : list Call) : bool :=
  match rev calls with
  | c :: _ => p c
  | [] => false
  end.

Definition count (p : Call -> bool) (calls : list Call) : nat :=
  List.length (filter p calls).

End Legacy.

(** ** More scenes on the demonstration platform *)

Module Scenes.

Import AuthenticationController.

(** Worlds in which the mail service, or the commit, is the call that
    throws during a registration. *)
Definition mail_down : World := set_faults [false; false; false; false; true] initial.

Definition commit_down : World :=
  set_faults [false; false; false; false; false; true] initial.

Definition ann_again : RegisterBody :=
  mkRegisterBody "Anna" "Li" "ann@x.com" "other" "different".

Definition no_address : RegisterBody :=
  mkRegisterBody "Ann" "Lee" "ann at x.com" "Secret123!" "Secret123!".

(** Bob's row, once Ann and he registered. *)
Definition bob_user : User.t :=
  User.make (Some 3) "Bob" "Ray" "bob@x.com" "$2b$hunter2" false.

#[export] Instance signer : Legacy.Signer := {|
  Legacy.jwt_sign := fun user secret => secret ++ "." ++ Legacy.signed_email_address user;
  Legacy.secretKey := "secret"
|}.

Definition nobody : Legacy.World := Legacy.mkWorld [] None [] [] [] 0 1700000000000.

Definition spaced_ann : Legacy.RegisterRequest :=
  Legacy.mkRegisterRequest "Ann" "Lee" " ann@x.com" "Secret123!".

Definition legacy_ann : Legacy.RegisterRequest :=
  Legacy.mkRegisterRequest "Ann" "Lee" "ann@x.com" "Secret123!".

Definition legacy_ann_user : Legacy.IUser :=
  Legacy.mkIUser 0 "Ann" "Lee" "ann@x.com" "$2b$Secret123!" 1700000000000 None.

(** The world of the earlier handlers after Ann registered. *)
Definition legacy_ann_registered : Legacy.World :=
  snd (Legacy.registerUser (platform := Demo.platform) legacy_ann nobody).

Definition services : list (string * App.Service) :=
  [("signIn", App.mkService "/sign-in" "POST" false "signInUser");
   ("listProducts", App.mkService "/products" "Get" true "listProducts")].

End Scenes.

(** * Properties *)

Example ann_registers :
  fst (AuthenticationController.register (platform := Demo.platform) Demo.ann initial)
  = Return AuthenticationController.registered.
Proof. vm_compute. reflexivity. Qed.

Example ann_is_stored :
  Database.users (db Demo.ann_registered)
  = [User.make (Some 1) "Ann" "Lee" "ann@x.com" "$2b$Secret123!" false]
  /\ Database.tokens (db Demo.ann_registered) = [Token.make (Some 2) (Some 1)]
  /\ trace Demo.ann_registered
     = [StartTransaction; FindOneUser "ann@x.com";
        SaveUser (User.make None "Ann" "Lee" "ann@x.com" "$2b$Secret123!" false);
        SaveToken (Token.make None (Some 1));
        Send (AuthenticationController.activation_mail
                (User.make (Some 1) "Ann" "Lee" "ann@x.com" "$2b$Secret123!" false)
                "https://mycashier.pw/activate?email_address=ann@x.com&token=2");
        Commit].
Proof. vm_compute. repeat split. Qed.

Example test_ann : test emailRegExp "ann@x.com" = true.
Proof. vm_compute. reflexivity. Qed.

Example test_literal : test emailRegExp "root@[127.0.0.1]" = true.
Proof. vm_compute. reflexivity. Qed.

Example test_no_tld : test emailRegExp "ann@localhost" = false.
Proof. vm_compute. reflexivity. Qed.

Example test_two_dots : test emailRegExp "a..b@x.com" = false.
Proof. vm_compute. reflexivity. Qed.

Example test_space : test emailRegExp "a b@x.com" = false.
Proof. vm_compute. reflexivity. Qed.

Example ann_signs_in_before_activation_with_a_wrong_password :
  fst (AuthenticationController.signIn (platform := Demo.platform)
         (AuthenticationController.mkSignInBody "ann@x.com" "guess") Demo.ann_registered)
  = Return (AuthenticationController.mkSignInResponse "secret.ann@x.com").
Proof. vm_compute. reflexivity. Qed.

Example disciplined_register : disciplined (AuthenticationController.register (platform := Demo.platform) Demo.ann) initial = true.
Proof. vm_compute. reflexivity. Qed.

Example undisciplined_signIn : disciplined (AuthenticationController.signIn (platform := Demo.platform)
         (AuthenticationController.mkSignInBody "ann@x.com" "guess")) Demo.ann_registered = false.
Proof. vm_compute. reflexivity. Qed.

(** ** Running a method by hand *)

(** Unfold the monad, the collaborators and the accessors; what is left is
    what the run is stuck on: a lookup, a comparison or the fault script. *)
Ltac run :=
  cbv beta iota zeta delta
    [AuthenticationController.signIn AuthenticationController.register
     AuthenticationController.activate AuthenticationController.forgetPassword
     AuthenticationController.recover
     try_catch bind ret throw await called faulty hashSync
     DatabaseService.startTransaction DatabaseService.commit DatabaseService.rollback
     Manager.findOne_User Manager.findOne_Token Manager.save_User
     Manager.save_Token Manager.remove_Token SendGridMail.send
     set_db set_snapshot set_outbox set_trace set_faults set_entropy
     db snapshot outbox trace faults entropy
     AuthenticationController.signIn_email_address
     AuthenticationController.signIn_password
     AuthenticationController.register_given_name
     AuthenticationController.register_maiden_name
     AuthenticationController.register_email_address
     AuthenticationController.register_password
     AuthenticationController.register_password_confirmation
     AuthenticationController.activate_email_address
     AuthenticationController.activate_token
     AuthenticationController.forgetPassword_email_address
     AuthenticationController.recover_email_address
     AuthenticationController.recover_token
     AuthenticationController.recover_password
     AuthenticationController.recover_password_confirmation
     negb];
  cbn [hd tl fst snd].

(** Put a trace in the shape [before ++ calls]. *)
Ltac flatten := repeat rewrite <- app_assoc; cbn [app].

Section Store.

Import Database.

Lemma id_eqb_eq a b : id_eqb a b = true <-> a = b.
Proof.
  destruct a as [x|], b as [y|]; simpl; split; intro E;
    try discriminate; try reflexivity.
  - apply N.eqb_eq in E. now subst.
  - inversion E. apply N.eqb_refl.
Qed.

Lemma id_eqb_refl a : id_eqb a a = true.
Proof. now apply id_eqb_eq. Qed.

Lemma find_user_email e d u : find_user e d = Some u -> User.email_address u = e.
Proof.
  unfold find_user. intro F. apply find_some in F. destruct F as [_ F].
  now apply String.eqb_eq in F.
Qed.

Lemma find_token_id k d x : find_token k d = Some x -> Token._id x = Some k.
Proof.
  unfold find_token. intro F. apply find_some in F. destruct F as [_ F].
  now apply id_eqb_eq in F.
Qed.

(** Updating the rows of a key with an entity of the searched address
    makes that entity the one the search finds. *)
Lemma find_replaced e (u u' : User.t) (rows : list User.t) :
  find (has_email e) rows = Some u ->
  User._id u' = User._id u ->
  User.email_address u' = e ->
  find (has_email e)
       (map (fun r => if user_has_id (User._id u') r then u' else r) rows)
  = Some u'.
Proof.
  intros F Hid Hmail. induction rows as [|r rows IH]; simpl in *.
  - discriminate.
  - destruct (user_has_id (User._id u') r) eqn:K.
    + unfold has_email at 1. rewrite Hmail, String.eqb_refl. reflexivity.
    + destruct (has_email e r) eqn:E.
      * inversion F; subst r. unfold user_has_id in K.
        rewrite Hid, id_eqb_refl in K. discriminate.
      * apply IH, F.
Qed.

Lemma find_user_saved e d u u' :
  find_user e d = Some u ->
  User._id u <> None ->
  User._id u' = User._id u ->
  User.email_address u' = e ->
  save_user u' d
  = (u', make (map (fun r => if user_has_id (User._id u') r then u' else r) (users d))
              (tokens d) (next_id d))
  /\ find_user e (snd (save_user u' d)) = Some u'.
Proof.
  intros F K Hid Hmail.
  assert (S : save_user u' d
              = (u', make (map (fun r => if user_has_id (User._id u') r then u' else r)
                               (users d)) (tokens d) (next_id d))).
  { unfold save_user. destruct (User._id u') as [k|] eqn:Ku'.
    - replace (existsb (user_has_id (Some k)) (users d)) with true; [reflexivity|].
      symmetry. apply existsb_exists. exists u. split.
      + unfold find_user in F. now apply find_some in F.
      + unfold user_has_id. rewrite <- Hid. apply id_eqb_refl.
    - elim K. now rewrite <- Hid. }
  split; [exact S|]. rewrite S. unfold find_user. simpl.
  now apply find_replaced with (u := u).
Qed.

Lemma find_token_removed k d x :
  find_token k d = Some x -> find_token k (remove_token x d) = None.
Proof.
  intro F. pose proof (find_token_id _ _ _ F) as K.
  unfold find_token, remove_token. simpl. rewrite K. clear.
  induction (tokens d) as [|r rows IH]; simpl; [reflexivity|].
  destruct (token_has_id (Some k) r) eqn:E; simpl; [exact IH|].
  rewrite E. exact IH.
Qed.

Lemma find_app_none {A} (p : A -> bool) (l : list A) (x : A) :
  find p l = None -> find p (l ++ [x]) = if p x then Some x else None.
Proof.
  induction l as [|a l IH]; simpl; [reflexivity|].
  destruct (p a); [discriminate|exact IH].
Qed.

Lemma find_user_save_token e x d : find_user e (snd (save_token x d)) = find_user e d.
Proof.
  unfold find_user, save_token.
  destruct (Token._id x); [destruct (existsb _ _)|]; reflexivity.
Qed.

(** The Token that [save] makes of a new entity is found under the key
    the store handed out, provided that key was unused. *)
Lemma find_token_issued owner d :
  find_token (next_id d) d = None ->
  find_token (next_id d) (snd (save_token (Token.set_user_id owner Token.new) d))
  = Some (Token.make (Some (next_id d)) owner).
Proof.
  unfold find_token, save_token. cbn. intros K. rewrite (find_app_none _ _ _ K).
  unfold token_has_id. cbn. now rewrite N.eqb_refl.
Qed.

Lemma find_user_appended e d u rows n :
  find_user e d = None ->
  User.email_address u = e ->
  find_user e (make (users d ++ [u]) rows n) = Some u.
Proof.
  unfold find_user. cbn. intros F E. rewrite (find_app_none _ _ _ F).
  unfold has_email. now rewrite E, String.eqb_refl.
Qed.

Lemma find_token_appended k d x rows n :
  find_token k d = None ->
  Token._id x = Some k ->
  find_token k (make rows (tokens d ++ [x]) n) = Some x.
Proof.
  unfold find_token. cbn. intros F E. rewrite (find_app_none _ _ _ F).
  unfold token_has_id. now rewrite E, id_eqb_refl.
Qed.

Lemma keyed_id d e u : keyed d = true -> find_user e d = Some u -> User._id u <> None.
Proof.
  unfold keyed, find_user. intros K F. apply find_some in F. destruct F as [I _].
  rewrite forallb_forall in K. specialize (K _ I).
  destruct (User._id u); [discriminate|discriminate K].
Qed.

End Store.

Lemma skipn_prefix {A} (l calls : list A) : skipn (List.length l) (l ++ calls) = calls.
Proof. induction l; simpl; auto. Qed.

(** Split on whatever the run is stuck on, unless a hypothesis decides. *)
Ltac split_run :=
  repeat (run;
          match goal with
          | H : ?x = _ |- context [match ?x with _ => _ end] => rewrite H
          | |- context [match ?x with _ => _ end] =>
              lazymatch x with
              | context [match _ with _ => _ end] => fail
              | _ => destruct x eqn:?
              end
          end).

Section Workflow.

Context {platform : Platform}.
Import AuthenticationController.

(** *** What each method does when no collaborator throws *)

Lemma signIn_run body w :
  signIn body w
  = (if faulty w
     then Throw (Failed (FindOneUser (signIn_email_address body)))
     else
       match Database.find_user (signIn_email_address body) (db w) with
       | None => Throw (BadRequest sign_in_failed)
       | Some user =>
           if compareSync (signIn_password body) (User.password user)
           then Throw (BadRequest sign_in_failed)
           else Return (mkSignInResponse (sign (without_password user) jwt_secret))
       end,
     called (FindOneUser (signIn_email_address body)) w).
Proof.
  destruct w as [d s o tr f e]. split_run; reflexivity.
Qed.

Lemma register_run body w :
  reliable w ->
  let email := register_email_address body in
  let user :=
    User.make (Some (Database.next_id (db w)))
              (register_given_name body) (register_maiden_name body) email
              (bcrypt (register_password body) 10 (entropy w)) false in
  let token :=
    Token.make (Some (N.succ (Database.next_id (db w))))
               (Some (Database.next_id (db w))) in
  register body w
  = if test emailRegExp email
    then
      match Database.find_user email (db w) with
      | Some _ =>
          (Throw (BadRequest (already_registered email)),
           rolled_back [StartTransaction; FindOneUser email; Rollback] w)
      | None =>
          if String.eqb (register_password body) (register_password_confirmation body)
          then
            (Return registered,
             committed
               (Database.make (Database.users (db w) ++ [user])
                              (Database.tokens (db w) ++ [token])
                              (N.succ (N.succ (Database.next_id (db w)))))
               [activation_mail user (link_to user token)]
               [StartTransaction; FindOneUser email;
                SaveUser (User.set__id None user);
                SaveToken (Token.set__id None token);
                Send (activation_mail user (link_to user token));
                Commit]
               1 w)
          else
            (Throw (BadRequest no_match),
             rolled_back [StartTransaction; FindOneUser email; Rollback] w)
      end
    else
      (Throw (BadRequest (not_an_email email)),
       rolled_back [StartTransaction; Rollback] w).
Proof.
  intros R. destruct w as [d s o tr f e]. cbv [reliable faults] in R. subst f.
  cbv zeta. split_run; unfold rolled_back, committed; run; flatten;
    try reflexivity.
  unfold Database.save_user, Database.save_token. cbn.
  rewrite N.add_1_r. reflexivity.
Qed.

Lemma activate_run body w :
  reliable w ->
  let email := activate_email_address body in
  activate body w
  = match Database.find_user email (db w) with
    | None =>
        (Throw (BadRequest (no_account email)),
         rolled_back [StartTransaction; FindOneUser email; Rollback] w)
    | Some user =>
        match Database.find_token (activate_token body) (db w) with
        | Some token =>
            if id_eqb (Token.user_id token) (User._id user)
            then
              let activated_user := User.set_is_activated true user in
              let saved := Database.save_user activated_user (db w) in
              (Return activated,
               committed
                 (Database.remove_token token (snd saved))
                 [welcome_mail (fst saved)]
                 [StartTransaction; FindOneUser email;
                  FindOneToken (activate_token body);
                  SaveUser activated_user; RemoveToken token;
                  Send (welcome_mail (fst saved)); Commit]
                 0 w)
            else
              (Throw (BadRequest bad_activation_token),
               rolled_back [StartTransaction; FindOneUser email;
                            FindOneToken (activate_token body); Rollback] w)
        | None =>
            (Throw (BadRequest bad_activation_token),
             rolled_back [StartTransaction; FindOneUser email;
                          FindOneToken (activate_token body); Rollback] w)
        end
    end.
Proof.
  intros R. destruct w as [d s o tr f e]. cbv [reliable faults] in R. subst f.
  cbv zeta. split_run; unfold rolled_back, committed; run; flatten;
    rewrite ?N.add_0_r; reflexivity.
Qed.

Lemma forgetPassword_run body w :
  reliable w ->
  let email := forgetPassword_email_address body in
  forgetPassword body w
  = match Database.find_user email (db w) with
    | None =>
        (Throw (BadRequest (no_account email)),
         rolled_back [StartTransaction; FindOneUser email; Rollback] w)
    | Some user =>
        let fresh := Token.set_user_id (User._id user) Token.new in
        let saved := Database.save_token fresh (db w) in
        (Return recovery_sent,
         committed
           (snd saved)
           [recovery_mail user (link_to user (fst saved))]
           [StartTransaction; FindOneUser email; SaveToken fresh;
            Send (recovery_mail user (link_to user (fst saved))); Commit]
           0 w)
    end.
Proof.
  intros R. destruct w as [d s o tr f e]. cbv [reliable faults] in R. subst f.
  cbv zeta. split_run; unfold rolled_back, committed; run; flatten;
    rewrite ?N.add_0_r; reflexivity.
Qed.

Lemma recover_run body w :
  reliable w ->
  let email := recover_email_address body in
  recover body w
  = match Database.find_user email (db w) with
    | None =>
        (Throw (BadRequest (no_account email)),
         rolled_back [StartTransaction; FindOneUser email; Rollback] w)
    | Some user =>
        match Database.find_token (recover_token body) (db w) with
        | Some token =>
            if id_eqb (Token.user_id token) (User._id user)
            then
              if String.eqb (recover_password body) (recover_password_confirmation body)
              then
                let changed :=
                  User.set_password (bcrypt (recover_password body) 10 (entropy w)) user in
                let saved := Database.save_user changed (db w) in
                (Return recovered,
                 committed
                   (Database.remove_token token (snd saved))
                   []
                   [StartTransaction; FindOneUser email;
                    FindOneToken (recover_token body);
                    SaveUser changed; RemoveToken token; Commit]
                   1 w)
              else
                (Throw (BadRequest no_match),
                 rolled_back [StartTransaction; FindOneUser email;
                              FindOneToken (recover_token body); Rollback] w)
            else
              (Throw (BadRequest bad_recovery_token),
               rolled_back [StartTransaction; FindOneUser email;
                            FindOneToken (recover_token body); Rollback] w)
        | None =>
            (Throw (BadRequest bad_recovery_token),
             rolled_back [StartTransaction; FindOneUser email;
                          FindOneToken (recover_token body); Rollback] w)
        end
    end.
Proof.
  intros R. destruct w as [d s o tr f e]. cbv [reliable faults] in R. subst f.
  cbv zeta. split_run; unfold rolled_back, committed; run; flatten;
    rewrite ?N.add_1_r, ?app_nil_r; reflexivity.
Qed.

(** *** Sign-in *)

(** C1 (the code departs from it). The claim: sign-in fails exactly when
    the account is unknown or the password does not verify. The method
    tests [compareSync(...)] where the claim needs its negation: for an
    existing account and a password that verifies against the stored
    hash, sign-in throws the generic BadRequest. (The earlier handler
    signInUser of the same repository does negate the test.) *)
Theorem signIn_refuses_the_right_password w email_address password user :
  reliable w ->
  Database.find_user email_address (db w) = Some user ->
  compareSync password (User.password user) = true ->
  fst (signIn (mkSignInBody email_address password) w)
  = Throw (BadRequest sign_in_failed).
Proof.
  intros R F V. rewrite signIn_run. cbn [fst signIn_email_address signIn_password].
  unfold faulty. rewrite R. cbn [hd]. now rewrite F, V.
Qed.

(** C8 (the code departs from it). The claim: a wrong password for an
    existing account and an unknown address both fail, with the same
    message. For an existing account and a password that does not verify,
    sign-in returns a token for that account instead of failing. *)
Theorem signIn_admits_a_wrong_password w email_address password user :
  reliable w ->
  Database.find_user email_address (db w) = Some user ->
  compareSync password (User.password user) = false ->
  fst (signIn (mkSignInBody email_address password) w)
  = Return (mkSignInResponse (sign (without_password user) jwt_secret)).
Proof.
  intros R F V. rewrite signIn_run. cbn [fst signIn_email_address signIn_password].
  unfold faulty. rewrite R. cbn [hd]. now rewrite F, V.
Qed.

(** What sign-in does, in full: it throws exactly when the account is
    unknown or the password verifies. *)
Lemma signIn_throws_iff w body :
  reliable w ->
  returned (fst (signIn body w)) = false
  <-> Database.find_user (signIn_email_address body) (db w) = None
      \/ exists user,
           Database.find_user (signIn_email_address body) (db w) = Some user
           /\ compareSync (signIn_password body) (User.password user) = true.
Proof.
  intros R. rewrite signIn_run. cbn [fst]. unfold faulty. rewrite R. cbn [hd].
  destruct (Database.find_user _ _) as [user|].
  - destruct (compareSync _ _) eqn:V; cbn.
    + split; [|reflexivity]. intros _. right. now exists user.
    + split; [discriminate|]. intros [E|[u' [E V']]]; [discriminate|].
      inversion E; subst u'. congruence.
  - cbn. split; [now left|reflexivity].
Qed.

(** *** The unknown account *)

(** C3 (amended). When no User is stored for the address and no
    collaborator throws, activate, forgetPassword and recover each throw
    a BadRequest, not a NotFound, whose message is
    There is no account registered with email address, the address and a
    period. *)
Theorem unknown_account_is_a_BadRequest w email_address :
  reliable w ->
  Database.find_user email_address (db w) = None ->
  (forall token,
      fst (activate (mkActivateBody email_address token) w)
      = Throw (BadRequest (no_account email_address)))
  /\ fst (forgetPassword (mkForgetPasswordBody email_address) w)
     = Throw (BadRequest (no_account email_address))
  /\ (forall token password password_confirmation,
         fst (recover (mkRecoverBody email_address token password
                                     password_confirmation) w)
         = Throw (BadRequest (no_account email_address))).
Proof.
  intros R F. repeat split; intros.
  - rewrite activate_run by assumption. cbn. now rewrite F.
  - rewrite forgetPassword_run by assumption. cbn. now rewrite F.
  - rewrite recover_run by assumption. cbn. now rewrite F.
Qed.

(** *** Registration *)

(** C4. A registration with an address that matches the pattern and is
    not stored yet, and with a password equal to its confirmation,
    returns the confirmation message; the store gains exactly one User,
    inactive, whose password is the bcrypt digest of the password, and
    exactly one Token, owned by that User; exactly one message is sent,
    the activation mail; the transaction is committed. *)
Theorem register_creates_one_account w body :
  reliable w ->
  test emailRegExp (register_email_address body) = true ->
  Database.find_user (register_email_address body) (db w) = None ->
  register_password body = register_password_confirmation body ->
  let w' := snd (register body w) in
  let user :=
    User.make (Some (Database.next_id (db w)))
              (register_given_name body) (register_maiden_name body)
              (register_email_address body)
              (bcrypt (register_password body) 10 (entropy w)) false in
  let token :=
    Token.make (Some (N.succ (Database.next_id (db w)))) (User._id user) in
  fst (register body w) = Return registered
  /\ Database.users (db w') = (Database.users (db w) ++ [user])%list
  /\ Database.tokens (db w') = (Database.tokens (db w) ++ [token])%list
  /\ outbox w' = (outbox w ++ [activation_mail user (link_to user token)])%list
  /\ snapshot w' = None
  /\ Trace.count Trace.commits (calls_made (register body) w) = 1%nat.
Proof.
  intros R T F E. cbv zeta. unfold calls_made.
  rewrite (register_run body w R). cbv zeta. rewrite T, F, E, String.eqb_refl.
  cbn [fst snd committed db snapshot outbox trace Database.users Database.tokens].
  rewrite skipn_prefix. repeat split.
Qed.

(** C9. A registration with an address that matches the pattern and is
    not stored yet, but with a password different from its confirmation,
    throws the BadRequest of the mismatch (the InvalidInput of the
    workflow); the store is as before, so no User was created, and no
    message was sent: the method only opened the transaction, looked the
    address up and rolled back. *)
Theorem register_mismatch_changes_nothing w body :
  reliable w ->
  test emailRegExp (register_email_address body) = true ->
  Database.find_user (register_email_address body) (db w) = None ->
  register_password body <> register_password_confirmation body ->
  let w' := snd (register body w) in
  fst (register body w) = Throw (BadRequest no_match)
  /\ db w' = db w
  /\ outbox w' = outbox w
  /\ calls_made (register body) w
     = [StartTransaction; FindOneUser (register_email_address body); Rollback].
Proof.
  intros R T F E. cbv zeta. unfold calls_made.
  rewrite (register_run body w R). cbv zeta. rewrite T, F.
  apply String.eqb_neq in E. rewrite E.
  cbn [fst snd rolled_back db outbox trace]. rewrite skipn_prefix. repeat split.
Qed.

(** *** Activation *)

(** C7. For the User stored for an address and a stored Token whose
    owner is not that User, activate throws the BadRequest of the invalid
    token (the InvalidInput of the workflow); the store is as before, so
    the User's activation flag is unchanged. *)
Theorem activate_refuses_a_foreign_token w email_address id user token :
  reliable w ->
  Database.find_user email_address (db w) = Some user ->
  Database.find_token id (db w) = Some token ->
  Token.user_id token <> User._id user ->
  let w' := snd (activate (mkActivateBody email_address id) w) in
  fst (activate (mkActivateBody email_address id) w)
  = Throw (BadRequest bad_activation_token)
  /\ db w' = db w
  /\ Database.find_user email_address (db w') = Some user.
Proof.
  intros R F K O. cbv zeta. rewrite (activate_run _ w R). cbv zeta.
  cbn [activate_email_address activate_token]. rewrite F, K.
  destruct (id_eqb (Token.user_id token) (User._id user)) eqn:E.
  - apply id_eqb_eq in E. contradiction.
  - cbn. auto.
Qed.

(** Whatever the fault script, a run of activate that returns found the
    User and a Token owned by it, and left the store with the flag set
    and the Token removed. *)
Lemma activate_returns body w message w' :
  activate body w = (Return message, w') ->
  exists user token,
    Database.find_user (activate_email_address body) (db w) = Some user
    /\ Database.find_token (activate_token body) (db w) = Some token
    /\ Token.user_id token = User._id user
    /\ db w'
       = Database.remove_token token
           (snd (Database.save_user (User.set_is_activated true user) (db w))).
Proof.
  destruct w as [d s o tr f e]. split_run; intros E; try discriminate E.
  inversion E; subst. run.
  match goal with H : id_eqb _ _ = true |- _ => apply id_eqb_eq in H end.
  eauto 6.
Qed.

(** Whatever the fault script, activate throws when the Token is not in
    the store. *)
Lemma activate_needs_the_token body w :
  Database.find_token (activate_token body) (db w) = None ->
  returned (fst (activate body w)) = false.
Proof.
  destruct w as [d s o tr f e], body as [email_address id].
  cbn [db activate_token]. intros K. split_run; reflexivity.
Qed.

(** C5. Whenever activate returns, from a store whose users have their
    keys: the Token of that id is no longer in the resulting store, the
    User stored for the address has its activation flag set, and activate
    called again with the same address and id throws. *)
Theorem activate_consumes_the_token w body message w' :
  keyed (db w) = true ->
  activate body w = (Return message, w') ->
  Database.find_token (activate_token body) (db w') = None
  /\ (exists user,
         Database.find_user (activate_email_address body) (db w') = Some user
         /\ User.is_activated user = true)
  /\ returned (fst (activate body w')) = false.
Proof.
  intros K A. destruct (activate_returns _ _ _ _ A) as (user & token & F & T & _ & D).
  assert (G : Database.find_token (activate_token body) (db w') = None).
  { rewrite D.
    apply (find_token_removed
             _ (snd (Database.save_user (User.set_is_activated true user) (db w)))).
    unfold Database.find_token, Database.save_user.
    destruct (User._id (User.set_is_activated true user));
      [destruct (existsb _ _)|]; exact T. }
  split; [exact G|]. split; [|now apply activate_needs_the_token].
  exists (User.set_is_activated true user). split; [|reflexivity].
  rewrite D.
  destruct (find_user_saved _ _ user (User.set_is_activated true user) F) as [_ S].
  - now apply keyed_id with (d := db w) (e := activate_email_address body).
  - reflexivity.
  - cbn. now apply find_user_email with (d := db w).
  - exact S.
Qed.

(** *** Recovery *)

(** C6 (the code departs from it). The claim: after a recovery, sign-in
    with the new password succeeds and with the old one fails. Whenever
    recover returns, from a store whose users have their keys and with
    no collaborator throwing: the Token of that id is no longer in the
    store, but sign-in with the new password throws the generic
    BadRequest, and sign-in with any password that does not verify
    against the new digest, the old one for instance, returns a token. *)
Theorem recover_then_signIn_refuses_the_new_password w body message w' :
  reliable w ->
  keyed (db w) = true ->
  recover body w = (Return message, w') ->
  fst (signIn (mkSignInBody (recover_email_address body) (recover_password body)) w')
  = Throw (BadRequest sign_in_failed)
  /\ (forall old_password,
         compareSync old_password
                     (bcrypt (recover_password body) 10 (entropy w)) = false ->
         returned (fst (signIn (mkSignInBody (recover_email_address body)
                                             old_password) w')) = true)
  /\ Database.find_token (recover_token body) (db w') = None.
Proof.
  intros R K A. rewrite (recover_run body w R) in A. cbv zeta in A.
  destruct (Database.find_user _ _) as [user|] eqn:F; [|discriminate A].
  destruct (Database.find_token _ _) as [token|] eqn:T; [|discriminate A].
  destruct (id_eqb _ _); [|discriminate A].
  destruct (String.eqb _ _); [|discriminate A].
  inversion A; subst w'; clear A.
  set (changed := User.set_password (bcrypt (recover_password body) 10 (entropy w)) user).
  destruct (find_user_saved _ _ user changed F) as [_ S];
    [now apply keyed_id with (d := db w) (e := recover_email_address body)
    | reflexivity
    | cbn; now apply find_user_email with (d := db w) |].
  assert (S' : Database.find_user (recover_email_address body)
                 (Database.remove_token token (snd (Database.save_user changed (db w))))
               = Some changed) by exact S.
  repeat split.
  - rewrite signIn_run. unfold faulty, committed.
    cbn [fst hd faults db signIn_email_address signIn_password].
    rewrite S'. cbn [changed User.password User.set_password].
    now rewrite compareSync_bcrypt.
  - intros old V. rewrite signIn_run. unfold faulty, committed.
    cbn [fst hd faults db signIn_email_address signIn_password].
    rewrite S'. cbn [changed User.password User.set_password]. now rewrite V.
  - cbn [committed db].
    apply (find_token_removed _ (snd (Database.save_user changed (db w)))).
    unfold Database.find_token, Database.save_user.
    destruct (User._id changed); [destruct (existsb _ _)|]; exact T.
Qed.

(** *** Tokens carry no purpose *)

(** C10. For the User stored for an address and with no collaborator
    throwing, activate returns exactly when a Token of the given id is
    stored and its owner is that User, and so does recover (given a
    password equal to its confirmation): nothing else about the Token is
    looked at, and a Token has nothing else to look at, so one made by
    register and one made by forgetPassword are accepted alike by
    both. *)
Theorem tokens_are_accepted_on_owner_alone w email_address id user :
  reliable w ->
  Database.find_user email_address (db w) = Some user ->
  (returned (fst (activate (mkActivateBody email_address id) w)) = true
   <-> exists token,
        Database.find_token id (db w) = Some token
        /\ Token.user_id token = User._id user)
  /\ (forall password,
         returned (fst (recover (mkRecoverBody email_address id password password) w))
         = true
         <-> exists token,
              Database.find_token id (db w) = Some token
              /\ Token.user_id token = User._id user).
Proof.
  intros R F. split; [|intros password].
  - rewrite (activate_run _ w R). cbv zeta. cbn [activate_email_address activate_token].
    rewrite F. destruct (Database.find_token id (db w)) as [token|].
    + destruct (id_eqb _ _) eqn:E; cbn.
      * apply id_eqb_eq in E. split; [eauto|reflexivity].
      * split; [discriminate|]. intros (k & Ek & O). inversion Ek; subst k.
        apply id_eqb_eq in O. congruence.
    + cbn. split; [discriminate|]. intros (k & Ek & _). discriminate.
  - rewrite (recover_run _ w R). cbv zeta.
    cbn [recover_email_address recover_token recover_password
         recover_password_confirmation].
    rewrite F, String.eqb_refl. destruct (Database.find_token id (db w)) as [token|].
    + destruct (id_eqb _ _) eqn:E; cbn.
      * apply id_eqb_eq in E. split; [eauto|reflexivity].
      * split; [discriminate|]. intros (k & Ek & O). inversion Ek; subst k.
        apply id_eqb_eq in O. congruence.
    + cbn. split; [discriminate|]. intros (k & Ek & _). discriminate.
Qed.

(** A Token made by forgetPassword is accepted by activate and by recover,
    and so is one made by register: here for the key the store hands out
    next, provided no stored Token has it already. *)
Lemma a_token_of_either_origin_is_accepted w body password :
  reliable w ->
  Database.find_token (Database.next_id (db w)) (db w) = None ->
  Database.find_token (N.succ (Database.next_id (db w))) (db w) = None ->
  (forall user,
      Database.find_user (forgetPassword_email_address body) (db w) = Some user ->
      let w' := snd (forgetPassword body w) in
      let id := Database.next_id (db w) in
      returned (fst (activate (mkActivateBody (forgetPassword_email_address body) id) w'))
      = true
      /\ returned (fst (recover (mkRecoverBody (forgetPassword_email_address body) id
                                               password password) w'))
         = true)
  /\ (forall registration,
         returned (fst (register registration w)) = true ->
         let w' := snd (register registration w) in
         let id := N.succ (Database.next_id (db w)) in
         returned (fst (activate (mkActivateBody (register_email_address registration)
                                                 id) w'))
         = true
         /\ returned (fst (recover (mkRecoverBody (register_email_address registration)
                                                  id password password) w'))
            = true).
Proof.
  intros R K1 K2.
  assert (R' : forall d mails calls salts, reliable (committed d mails calls salts w))
    by reflexivity.
  split.
  - intros user F. cbv zeta. rewrite (forgetPassword_run body w R). cbv zeta.
    rewrite F. cbn [snd].
    rewrite activate_run, recover_run by apply R'. cbv zeta.
    cbn [committed db activate_email_address activate_token recover_email_address
         recover_token recover_password recover_password_confirmation].
    rewrite find_user_save_token, F, (find_token_issued _ _ K1).
    cbn [Token.user_id]. rewrite id_eqb_refl, String.eqb_refl. split; reflexivity.
  - intros registration. cbv zeta. rewrite (register_run registration w R). cbv zeta.
    destruct (test emailRegExp _); [|discriminate].
    destruct (Database.find_user _ _) eqn:F; [discriminate|].
    destruct (String.eqb (register_password _) _); [|discriminate].
    intros _. cbn [snd].
    rewrite activate_run, recover_run by apply R'. cbv zeta.
    cbn [committed db activate_email_address activate_token recover_email_address
         recover_token recover_password recover_password_confirmation].
    rewrite (find_user_appended _ _ _ _ _ F) by reflexivity.
    rewrite (find_token_appended _ _ _ _ _ K2) by reflexivity.
    cbn [Token.user_id User._id]. rewrite id_eqb_refl, String.eqb_refl.
    split; reflexivity.
Qed.

(** *** Transactions *)

Lemma disciplined_of_calls {A} (m : M A) w calls :
  trace (snd (m w)) = (trace w ++ calls)%list ->
  well_bracketed (fst (m w)) calls = true ->
  trace (snd (m w)) = (trace w ++ calls_made m w)%list /\ disciplined m w = true.
Proof.
  intros E B. unfold disciplined, calls_made. rewrite E, skipn_prefix. auto.
Qed.

(** Close a leaf of a run: name the calls it made and check them. *)
Ltac leaf :=
  let E := fresh "E" in
  intros E; inversion E; subst; cbn [fst snd trace];
  eexists; (split; [flatten; reflexivity | reflexivity]).

Lemma register_bracketed body w :
  exists calls,
    trace (snd (register body w)) = (trace w ++ calls)%list
    /\ well_bracketed (fst (register body w)) calls = true.
Proof.
  destruct (register body w) as [r w'] eqn:E. revert E.
  destruct w as [d s o tr f e], body as [gn mn em pw pc].
  split_run; leaf.
Qed.

Lemma activate_bracketed body w :
  exists calls,
    trace (snd (activate body w)) = (trace w ++ calls)%list
    /\ well_bracketed (fst (activate body w)) calls = true.
Proof.
  destruct (activate body w) as [r w'] eqn:E. revert E.
  destruct w as [d s o tr f e], body as [em id].
  split_run; leaf.
Qed.

Lemma forgetPassword_bracketed body w :
  exists calls,
    trace (snd (forgetPassword body w)) = (trace w ++ calls)%list
    /\ well_bracketed (fst (forgetPassword body w)) calls = true.
Proof.
  destruct (forgetPassword body w) as [r w'] eqn:E. revert E.
  destruct w as [d s o tr f e], body as [em].
  split_run; leaf.
Qed.

Lemma recover_bracketed body w :
  exists calls,
    trace (snd (recover body w)) = (trace w ++ calls)%list
    /\ well_bracketed (fst (recover body w)) calls = true.
Proof.
  destruct (recover body w) as [r w'] eqn:E. revert E.
  destruct w as [d s o tr f e], body as [em id pw pc].
  split_run; leaf.
Qed.

(** C2 (amended). Whatever the world and whichever calls throw, each of
    register, activate, forgetPassword and recover opens a transaction as
    its first call; when it throws, its last call is its one rollback;
    when it returns, its last call is its one commit and it rolled
    nothing back. signIn makes one call, the lookup of the User, and
    opens, commits and rolls back no transaction. *)
Theorem the_four_writers_keep_the_discipline :
  (forall body, keeps_discipline (register body))
  /\ (forall body, keeps_discipline (activate body))
  /\ (forall body, keeps_discipline (forgetPassword body))
  /\ (forall body, keeps_discipline (recover body))
  /\ (forall body w,
         calls_made (signIn body) w = [FindOneUser (signIn_email_address body)]
         /\ transaction_free (signIn body) w = true).
Proof.
  repeat split; try intros body w.
  1, 2: destruct (register_bracketed body w) as (calls & E & B);
        now apply disciplined_of_calls with (calls := calls).
  1, 2: destruct (activate_bracketed body w) as (calls & E & B);
        now apply disciplined_of_calls with (calls := calls).
  1, 2: destruct (forgetPassword_bracketed body w) as (calls & E & B);
        now apply disciplined_of_calls with (calls := calls).
  1, 2: destruct (recover_bracketed body w) as (calls & E & B);
        now apply disciplined_of_calls with (calls := calls).
  - unfold calls_made. rewrite signIn_run. destruct w; cbn. apply skipn_prefix.
  - unfold transaction_free, calls_made. rewrite signIn_run. destruct w; cbn.
    rewrite skipn_prefix. reflexivity.
Qed.

(** *** The users of the store keep their keys *)

Lemma keyed_save_user u d :
  keyed d = true -> keyed (snd (Database.save_user u d)) = true.
Proof.
  unfold keyed, Database.save_user. intros K.
  destruct (User._id u) as [k|] eqn:E; [destruct (existsb _ _)|]; cbn.
  - rewrite forallb_forall in *. intros r I. apply in_map_iff in I.
    destruct I as (r0 & Er & I). destruct (Database.user_has_id _ r0); subst r.
    + now rewrite E.
    + now apply K.
  - rewrite forallb_app, K. cbn. now rewrite E.
  - now rewrite forallb_app, K.
Qed.

Lemma keyed_save_token x d : keyed (snd (Database.save_token x d)) = keyed d.
Proof.
  unfold keyed, Database.save_token.
  destruct (Token._id x); [destruct (existsb _ _)|]; reflexivity.
Qed.

Lemma keyed_remove_token x d : keyed (Database.remove_token x d) = keyed d.
Proof. reflexivity. Qed.

(** Close a leaf of a run: the store it leaves is sound. *)
Ltac sound_leaf :=
  let E := fresh "E" in
  let Er := fresh "Er" in
  let Ew := fresh "Ew" in
  intros E; injection E as Er Ew; rewrite <- Ew;
  unfold sound in *; cbv [db snapshot] in *;
  rewrite ?keyed_remove_token, ?keyed_save_token;
  repeat match goal with
         | H : _ && _ = true |- _ => apply andb_prop in H; destruct H
         end;
  rewrite ?andb_true_r;
  repeat (apply andb_true_intro; split);
  auto using keyed_save_user;
  unfold keyed in *; cbn [Database.users];
  rewrite ?forallb_app; cbn; rewrite ?andb_true_r; assumption.

(** Whatever the fault script, every method leaves a sound world sound:
    from the empty store on, every stored user has a key. *)
Lemma every_method_keeps_the_keys w :
  sound w = true ->
  (forall body, sound (snd (signIn body w)) = true)
  /\ (forall body, sound (snd (register body w)) = true)
  /\ (forall body, sound (snd (activate body w)) = true)
  /\ (forall body, sound (snd (forgetPassword body w)) = true)
  /\ (forall body, sound (snd (recover body w)) = true).
Proof.
  intros S. repeat split; intros body.
  - rewrite signIn_run. destruct w. exact S.
  - destruct (register body w) as [r w'] eqn:E. revert E.
    destruct w as [d s o tr f e], body as [gn mn em pw pc].
    split_run; sound_leaf.
  - destruct (activate body w) as [r w'] eqn:E. revert E.
    destruct w as [d s o tr f e], body as [em id].
    split_run; sound_leaf.
  - destruct (forgetPassword body w) as [r w'] eqn:E. revert E.
    destruct w as [d s o tr f e], body as [em].
    split_run; sound_leaf.
  - destruct (recover body w) as [r w'] eqn:E. revert E.
    destruct w as [d s o tr f e], body as [em id pw pc].
    split_run; sound_leaf.
Qed.

End Workflow.

(** * Further properties of the controller *)

Section Rejections.

Context {platform : Platform}.
Import AuthenticationController.

(** *** Registration refused *)

(** X1. A registration whose address does not match the pattern throws
    the BadRequest that names the address, before any lookup: the only
    calls are the opening of the transaction and its rollback, and the
    store and the outbox are as before. *)
Theorem register_rejects_a_malformed_address w body :
  reliable w ->
  test emailRegExp (register_email_address body) = false ->
  let w' := snd (register body w) in
  fst (register body w)
  = Throw (BadRequest (not_an_email (register_email_address body)))
  /\ calls_made (register body) w = [StartTransaction; Rollback]
  /\ db w' = db w
  /\ outbox w' = outbox w.
Proof.
  intros R T. cbv zeta. unfold calls_made.
  rewrite (register_run body w R). cbv zeta. rewrite T.
  cbn [fst snd rolled_back db outbox trace]. rewrite skipn_prefix. repeat split.
Qed.

(** X2. A registration whose address matches the pattern but is stored
    already throws the BadRequest of the registered address, whether or
    not the password equals its confirmation; the store and the outbox are
    as before. *)
Theorem register_rejects_a_known_address w body user :
  reliable w ->
  test emailRegExp (register_email_address body) = true ->
  Database.find_user (register_email_address body) (db w) = Some user ->
  let w' := snd (register body w) in
  fst (register body w)
  = Throw (BadRequest (already_registered (register_email_address body)))
  /\ db w' = db w
  /\ outbox w' = outbox w.
Proof.
  intros R T F. cbv zeta. rewrite (register_run body w R). cbv zeta. rewrite T, F.
  cbn [fst snd rolled_back db outbox]. repeat split.
Qed.

(** X3. Once a registration has returned, a second registration with the
    same address, whatever its names and passwords, throws the BadRequest
    of the registered address and leaves the store as the first made it:
    no second User is stored. *)
Theorem registering_twice w first second :
  reliable w ->
  returned (fst (register first w)) = true ->
  register_email_address second = register_email_address first ->
  let w1 := snd (register first w) in
  let w2 := snd (register second w1) in
  fst (register second w1)
  = Throw (BadRequest (already_registered (register_email_address second)))
  /\ db w2 = db w1.
Proof.
  intros R. cbv zeta. rewrite (register_run first w R). cbv zeta.
  destruct (test emailRegExp (register_email_address first)) eqn:T; [|discriminate].
  destruct (Database.find_user _ _) eqn:F; [discriminate|].
  destruct (String.eqb (register_password first) _); [|discriminate].
  intros _ E. cbn [snd].
  rewrite register_run by reflexivity. cbv zeta. rewrite E, T.
  cbn [committed db].
  rewrite (find_user_appended _ _ _ _ _ F) by reflexivity.
  cbn [fst snd rolled_back db committed]. split; reflexivity.
Qed.

(** *** Activation and recovery refused *)

(** X4. For a stored User and an id under which no Token is stored,
    activate throws the BadRequest of the invalid activation token and
    recover, whatever the passwords, the BadRequest of the invalid recovery
    token; both leave the store as it was. *)
Theorem an_unknown_token_is_refused w email_address id user :
  reliable w ->
  Database.find_user email_address (db w) = Some user ->
  Database.find_token id (db w) = None ->
  (fst (activate (mkActivateBody email_address id) w)
   = Throw (BadRequest bad_activation_token)
   /\ db (snd (activate (mkActivateBody email_address id) w)) = db w)
  /\ (forall password confirmation,
         fst (recover (mkRecoverBody email_address id password confirmation) w)
         = Throw (BadRequest bad_recovery_token)
         /\ db (snd (recover (mkRecoverBody email_address id password confirmation) w))
            = db w).
Proof.
  intros R F K. split; [|intros password confirmation].
  - rewrite (activate_run _ w R). cbv zeta.
    cbn [activate_email_address activate_token]. rewrite F, K. split; reflexivity.
  - rewrite (recover_run _ w R). cbv zeta.
    cbn [recover_email_address recover_token]. rewrite F, K. split; reflexivity.
Qed.

(** X5. For a stored User and a stored Token owned by someone else,
    recover throws the BadRequest of the invalid recovery token, even when
    the password differs from its confirmation: the token is checked
    first. The store, the password with it, is as before. *)
Theorem recover_refuses_a_foreign_token w email_address id user token password confirmation :
  reliable w ->
  Database.find_user email_address (db w) = Some user ->
  Database.find_token id (db w) = Some token ->
  Token.user_id token <> User._id user ->
  let body := mkRecoverBody email_address id password confirmation in
  fst (recover body w) = Throw (BadRequest bad_recovery_token)
  /\ db (snd (recover body w)) = db w.
Proof.
  intros R F K O. cbv zeta. rewrite (recover_run _ w R). cbv zeta.
  cbn [recover_email_address recover_token]. rewrite F, K.
  destruct (id_eqb (Token.user_id token) (User._id user)) eqn:E.
  - apply id_eqb_eq in E. contradiction.
  - split; reflexivity.
Qed.

(** X6. For a stored User and a Token it owns, recover with a password
    that differs from its confirmation throws the BadRequest of the
    mismatch and leaves the store as it was: the Token is not used up and
    the same call with matching passwords still returns. *)
Theorem recover_mismatch_keeps_the_token w email_address id user token password confirmation :
  reliable w ->
  Database.find_user email_address (db w) = Some user ->
  Database.find_token id (db w) = Some token ->
  Token.user_id token = User._id user ->
  password <> confirmation ->
  let body := mkRecoverBody email_address id password confirmation in
  let w' := snd (recover body w) in
  fst (recover body w) = Throw (BadRequest no_match)
  /\ db w' = db w
  /\ fst (recover (mkRecoverBody email_address id password password) w')
     = Return recovered.
Proof.
  intros R F K O E. cbv zeta. rewrite (recover_run _ w R). cbv zeta.
  cbn [recover_email_address recover_token recover_password
       recover_password_confirmation].
  rewrite F, K, O, id_eqb_refl. apply String.eqb_neq in E. rewrite E.
  cbn [fst snd]. repeat split.
  rewrite recover_run by reflexivity. cbv zeta.
  cbn [recover_email_address recover_token recover_password
       recover_password_confirmation rolled_back db].
  now rewrite F, K, O, id_eqb_refl, String.eqb_refl.
Qed.

End Rejections.

Section Rows.

Import Database.

Lemma find_app_some {A} (p : A -> bool) (l l' : list A) t :
  find p l = Some t -> find p (l ++ l') = Some t.
Proof.
  induction l as [|a l IH]; simpl; [discriminate|].
  destruct (p a); [trivial|exact IH].
Qed.

Lemma existsb_eqb_In {A} (eqb : A -> A -> bool)
      (spec : forall a b, eqb a b = true <-> a = b) a l :
  existsb (eqb a) l = true <-> In a l.
Proof.
  rewrite existsb_exists. split.
  - intros (x & I & E). apply spec in E. now subst.
  - intros I. exists a. split; [exact I|]. now apply spec.
Qed.

(** In a list without two equal images, a row is known by its image. *)
Lemma distinct_map_inj {A B} (eqb : B -> B -> bool)
      (spec : forall a b, eqb a b = true <-> a = b) (f : A -> B) l a b :
  distinct eqb (map f l) = true -> In a l -> In b l -> f a = f b -> a = b.
Proof.
  induction l as [|x l IH]; simpl; [contradiction|].
  intros D Ia Ib E. apply andb_prop in D. destruct D as [N D].
  apply negb_true_iff in N.
  assert (Out : forall y, In y l -> f y <> f x).
  { intros y I Ey.
    assert (X : existsb (eqb (f x)) (map f l) = true).
    { apply (existsb_eqb_In eqb spec). rewrite <- Ey. now apply in_map. }
    congruence. }
  destruct Ia as [Ea|Ia], Ib as [Eb|Ib]; subst.
  - reflexivity.
  - elim (Out b Ib). now symmetry.
  - elim (Out a Ia). exact E.
  - now apply IH.
Qed.

Lemma distinct_snoc {A} (eqb : A -> A -> bool)
      (spec : forall a b, eqb a b = true <-> a = b) l a :
  distinct eqb l = true -> ~ In a l -> distinct eqb (l ++ [a]) = true.
Proof.
  induction l as [|x l IH]; simpl; [reflexivity|].
  intros D N. apply andb_prop in D. destruct D as [X D].
  apply andb_true_intro. split.
  - apply negb_true_iff. apply negb_true_iff in X.
    rewrite existsb_app, X. simpl. rewrite orb_false_r.
    destruct (eqb x a) eqn:E; [|reflexivity].
    apply spec in E. elim N. now left.
  - apply IH; [exact D|]. intro I. apply N. now right.
Qed.

Lemma distinct_map_filter {A B} (eqb : B -> B -> bool) (f : A -> B) (p : A -> bool) l :
  distinct eqb (map f l) = true -> distinct eqb (map f (filter p l)) = true.
Proof.
  induction l as [|x l IH]; simpl; [reflexivity|].
  intros D. apply andb_prop in D. destruct D as [X D].
  destruct (p x); simpl; [|now apply IH].
  apply andb_true_intro. split; [|now apply IH].
  apply negb_true_iff. apply negb_true_iff in X.
  clear - X. induction l as [|y l IH]; simpl in *; [reflexivity|].
  apply orb_false_elim in X. destruct X as [X1 X2].
  destruct (p y); simpl; [rewrite X1|]; now apply IH.
Qed.

Lemma string_eqb_spec a b : String.eqb a b = true <-> a = b.
Proof. apply String.eqb_eq. Qed.

Lemma issued_some next k : issued next k = true -> k <> None.
Proof. destruct k; [discriminate|discriminate 1]. Qed.

Lemma issued_succ next k : issued next k = true -> issued (N.succ next) k = true.
Proof.
  destruct k as [x|]; simpl; [|trivial]. rewrite !N.ltb_lt. lia.
Qed.

Lemma issued_not_next next l :
  forallb (issued next) l = true -> ~ In (Some next) l.
Proof.
  rewrite forallb_forall. intros Hl I. specialize (Hl _ I). simpl in Hl.
  rewrite N.ltb_irrefl in Hl. discriminate.
Qed.

Lemma forallb_issued_succ next l :
  forallb (issued next) l = true -> forallb (issued (N.succ next)) l = true.
Proof.
  rewrite !forallb_forall. intros Hl k I. apply issued_succ. now apply Hl.
Qed.

Lemma consistent_keyed d : consistent d = true -> keyed d = true.
Proof.
  unfold consistent, keyed. intros C.
  repeat (apply andb_prop in C; destruct C as [C ?]).
  rewrite forallb_forall in *. intros u I.
  match goal with
  | H : forall x, In x (map User._id _) -> _ |- _ =>
      specialize (H _ (in_map User._id _ _ I))
  end.
  destruct (User._id u); [reflexivity|discriminate].
Qed.

(** In a consistent store the user of a key is the only row of that key. *)
Lemma consistent_one_row_per_key d e u r :
  consistent d = true ->
  find_user e d = Some u ->
  In r (users d) ->
  User._id r = User._id u ->
  r = u.
Proof.
  unfold consistent, find_user. intros C F I E.
  repeat (apply andb_prop in C; destruct C as [C ?]).
  apply find_some in F. destruct F as [Iu _].
  eapply (distinct_map_inj id_eqb id_eqb_eq User._id); eauto.
Qed.

Lemma find_token_save_user k u d : find_token k (snd (save_user u d)) = find_token k d.
Proof.
  unfold find_token, save_user.
  destruct (User._id u); [destruct (existsb _ _)|]; reflexivity.
Qed.

Lemma tokens_save_user u d : tokens (snd (save_user u d)) = tokens d.
Proof.
  unfold save_user. destruct (User._id u); [destruct (existsb _ _)|]; reflexivity.
Qed.


Lemma find_user_remove_token e x d : find_user e (remove_token x d) = find_user e d.
Proof. reflexivity. Qed.

(** Removing a Token leaves the Tokens of the other keys where they
    were. *)
Lemma find_token_remove_other other x d :
  Token._id x <> Some other ->
  find_token other (remove_token x d) = find_token other d.
Proof.
  intros N. unfold find_token, remove_token. simpl.
  induction (tokens d) as [|r rows IH]; simpl; [reflexivity|].
  destruct (token_has_id (Token._id x) r) eqn:E; simpl.
  - unfold token_has_id in E. apply id_eqb_eq in E.
    destruct (token_has_id (Some other) r) eqn:E'; [|exact IH].
    unfold token_has_id in E'. apply id_eqb_eq in E'. congruence.
  - destruct (token_has_id (Some other) r); [reflexivity|exact IH].
Qed.

(** Updating the row of one address leaves the search for another
    address as it was, when the rows of the updated key all carry the
    updated address. *)
Lemma find_replaced_other e other (u' : User.t) (rows : list User.t) :
  User.email_address u' = e ->
  other <> e ->
  (forall r, In r rows -> user_has_id (User._id u') r = true -> User.email_address r = e) ->
  find (has_email other)
       (map (fun r => if user_has_id (User._id u') r then u' else r) rows)
  = find (has_email other) rows.
Proof.
  intros Eu N Same. induction rows as [|r rows IH]; simpl; [reflexivity|].
  assert (IH' := IH (fun r0 I => Same r0 (or_intror I))).
  destruct (user_has_id (User._id u') r) eqn:K.
  - assert (Er := Same r (or_introl eq_refl) K).
    unfold has_email at 1 3. rewrite Eu, Er.
    destruct (String.eqb e other) eqn:X; [|exact IH'].
    apply String.eqb_eq in X. now elim N.
  - destruct (has_email other r); [reflexivity|exact IH'].
Qed.

Lemma find_user_saved_other e other d u u' :
  consistent d = true ->
  find_user e d = Some u ->
  User._id u' = User._id u ->
  User.email_address u' = e ->
  other <> e ->
  find_user other (snd (save_user u' d)) = find_user other d.
Proof.
  intros C F Hid Hmail N.
  assert (K : User._id u <> None)
    by (apply keyed_id with (d := d) (e := e); [now apply consistent_keyed|exact F]).
  destruct (find_user_saved e d u u' F K Hid Hmail) as [S _]. rewrite S.
  unfold find_user. simpl. apply find_replaced_other with (e := e); trivial.
  intros r I Kr. unfold user_has_id in Kr. apply id_eqb_eq in Kr.
  rewrite (consistent_one_row_per_key d e u r C F I) by congruence.
  now apply find_user_email with (d := d).
Qed.

End Rows.

Section Effects.

Context {platform : Platform}.
Import AuthenticationController.

Lemma welcome_mail_saved u d :
  welcome_mail (fst (Database.save_user (User.set_is_activated true u) d))
  = welcome_mail u.
Proof.
  unfold Database.save_user.
  destruct (User._id (User.set_is_activated true u));
    [destruct (existsb _ _)|]; reflexivity.
Qed.

(** *** What a success changes, and what it leaves alone *)

(** X7. For a stored User, forgetPassword returns its confirmation; the
    users are as before; the tokens gain exactly one, owned by the User,
    and every Token stored before is still found under its id; exactly one
    message is sent, the recovery mail with the link to the new Token. *)
Theorem forgetPassword_issues_one_more_token w email_address user :
  reliable w ->
  Database.find_user email_address (db w) = Some user ->
  let w' := snd (forgetPassword (mkForgetPasswordBody email_address) w) in
  let token := Token.make (Some (Database.next_id (db w))) (User._id user) in
  fst (forgetPassword (mkForgetPasswordBody email_address) w) = Return recovery_sent
  /\ Database.users (db w') = Database.users (db w)
  /\ Database.tokens (db w') = (Database.tokens (db w) ++ [token])%list
  /\ outbox w' = (outbox w ++ [recovery_mail user (link_to user token)])%list
  /\ (forall id stored,
         Database.find_token id (db w) = Some stored ->
         Database.find_token id (db w') = Some stored).
Proof.
  intros R F. cbv zeta. rewrite (forgetPassword_run _ w R). cbv zeta.
  cbn [forgetPassword_email_address]. rewrite F.
  cbn [fst snd committed db outbox]. unfold Database.save_token.
  cbn [Token._id Token.set_user_id Token.new fst snd Database.users Database.tokens
       Token.set__id Token.user_id].
  repeat split. intros id stored K. unfold Database.find_token in *.
  cbn [Database.tokens]. now apply find_app_some.
Qed.

(** X8. For a stored User and a Token it owns, activate returns its
    confirmation; the tokens lose the rows of that id and no other; exactly
    one message is sent, the welcome mail to the User's address; no
    transaction is left open. *)
Theorem activate_removes_the_token_and_welcomes w email_address id user token :
  reliable w ->
  Database.find_user email_address (db w) = Some user ->
  Database.find_token id (db w) = Some token ->
  Token.user_id token = User._id user ->
  let w' := snd (activate (mkActivateBody email_address id) w) in
  fst (activate (mkActivateBody email_address id) w) = Return activated
  /\ Database.tokens (db w')
     = filter (fun r => negb (Database.token_has_id (Some id) r))
              (Database.tokens (db w))
  /\ outbox w' = (outbox w ++ [welcome_mail user])%list
  /\ mail_to (welcome_mail user) = email_address
  /\ snapshot w' = None.
Proof.
  intros R F K O. cbv zeta. rewrite (activate_run _ w R). cbv zeta.
  cbn [activate_email_address activate_token]. rewrite F, K, O, id_eqb_refl.
  cbn [fst snd committed db outbox snapshot].
  rewrite welcome_mail_saved. repeat split.
  - unfold Database.remove_token. cbn [Database.tokens].
    now rewrite tokens_save_user, (find_token_id _ _ _ K).
  - cbn. now apply find_user_email with (d := db w).
Qed.


(** X10. In a consistent store, neither activate nor recover, whatever
    they are called with and whether they return or throw, changes what is
    stored for another address. *)
Theorem other_accounts_are_untouched w email_address id other :
  reliable w ->
  consistent (db w) = true ->
  other <> email_address ->
  Database.find_user other (db (snd (activate (mkActivateBody email_address id) w)))
  = Database.find_user other (db w)
  /\ (forall password confirmation,
         Database.find_user other
           (db (snd (recover (mkRecoverBody email_address id password confirmation) w)))
         = Database.find_user other (db w)).
Proof.
  intros R C N. split; [|intros password confirmation].
  - rewrite (activate_run _ w R). cbv zeta.
    cbn [activate_email_address activate_token].
    destruct (Database.find_user email_address (db w)) as [user|] eqn:F; [|reflexivity].
    destruct (Database.find_token id (db w)) as [token|]; [|reflexivity].
    destruct (id_eqb _ _); [|reflexivity].
    cbn [snd committed db]. rewrite find_user_remove_token.
    apply find_user_saved_other with (e := email_address) (u := user); trivial.
    cbn. now apply find_user_email with (d := db w).
  - rewrite (recover_run _ w R). cbv zeta.
    cbn [recover_email_address recover_token recover_password
         recover_password_confirmation].
    destruct (Database.find_user email_address (db w)) as [user|] eqn:F; [|reflexivity].
    destruct (Database.find_token id (db w)) as [token|]; [|reflexivity].
    destruct (id_eqb _ _); [|reflexivity].
    destruct (String.eqb password confirmation); [|reflexivity].
    cbn [snd committed db]. rewrite find_user_remove_token.
    apply find_user_saved_other with (e := email_address) (u := user); trivial.
    cbn. now apply find_user_email with (d := db w).
Qed.

(** X11. Neither activate nor recover, whatever they are called with and
    whether they return or throw, changes what is stored under another
    Token id: using one Token up leaves the other Tokens of the User
    valid. *)
Theorem other_tokens_survive w email_address id other :
  reliable w ->
  other <> id ->
  Database.find_token other (db (snd (activate (mkActivateBody email_address id) w)))
  = Database.find_token other (db w)
  /\ (forall password confirmation,
         Database.find_token other
           (db (snd (recover (mkRecoverBody email_address id password confirmation) w)))
         = Database.find_token other (db w)).
Proof.
  intros R N. split; [|intros password confirmation].
  - rewrite (activate_run _ w R). cbv zeta.
    cbn [activate_email_address activate_token].
    destruct (Database.find_user email_address (db w)) as [user|]; [|reflexivity].
    destruct (Database.find_token id (db w)) as [token|] eqn:K; [|reflexivity].
    destruct (id_eqb _ _); [|reflexivity].
    cbn [snd committed db].
    rewrite find_token_remove_other, find_token_save_user; [reflexivity|].
    rewrite (find_token_id _ _ _ K). congruence.
  - rewrite (recover_run _ w R). cbv zeta.
    cbn [recover_email_address recover_token recover_password
         recover_password_confirmation].
    destruct (Database.find_user email_address (db w)) as [user|]; [|reflexivity].
    destruct (Database.find_token id (db w)) as [token|] eqn:K; [|reflexivity].
    destruct (id_eqb _ _); [|reflexivity].
    destruct (String.eqb password confirmation); [|reflexivity].
    cbn [snd committed db].
    rewrite find_token_remove_other, find_token_save_user; [reflexivity|].
    rewrite (find_token_id _ _ _ K). congruence.
Qed.

End Effects.

Section Consistency.

Import Database.

Lemma find_user_none_not_in e d :
  find_user e d = None -> ~ In e (map User.email_address (users d)).
Proof.
  unfold find_user. intros F I. apply in_map_iff in I. destruct I as (u & E & I).
  pose proof (find_none _ _ F u I) as X. unfold has_email in X.
  rewrite E, String.eqb_refl in X. discriminate.
Qed.

Lemma consistent_save_new_user u d :
  consistent d = true ->
  find_user (User.email_address u) d = None ->
  User._id u = None ->
  consistent (snd (save_user u d)) = true.
Proof.
  intros C F K. unfold save_user. rewrite K. cbn [snd].
  unfold consistent in *. cbn [users tokens next_id].
  repeat (apply andb_prop in C; destruct C as [C ?]).
  rewrite !map_app, !forallb_app. cbn [map forallb issued User._id User.set__id
                                         User.email_address].
  repeat (apply andb_true_intro; split); trivial.
  - apply (distinct_snoc _ string_eqb_spec); trivial. now apply find_user_none_not_in.
  - apply (distinct_snoc _ id_eqb_eq); trivial. now apply issued_not_next.
  - now apply forallb_issued_succ.
  - apply N.ltb_lt. lia.
  - now apply forallb_issued_succ.
Qed.

Lemma consistent_save_new_token x d :
  consistent d = true ->
  Token._id x = None ->
  consistent (snd (save_token x d)) = true.
Proof.
  intros C K. unfold save_token. rewrite K. cbn [snd].
  unfold consistent in *. cbn [users tokens next_id].
  repeat (apply andb_prop in C; destruct C as [C ?]).
  rewrite !map_app, !forallb_app. cbn [map forallb issued Token._id Token.set__id].
  repeat (apply andb_true_intro; split); trivial.
  - now apply forallb_issued_succ.
  - apply (distinct_snoc _ id_eqb_eq); trivial. now apply issued_not_next.
  - now apply forallb_issued_succ.
  - apply N.ltb_lt. lia.
Qed.

(** Updating the one row of a key with an entity of the same key and
    address changes neither the keys nor the addresses of the rows. *)
Lemma consistent_update_user e u u' d :
  consistent d = true ->
  find_user e d = Some u ->
  User._id u' = User._id u ->
  User.email_address u' = User.email_address u ->
  consistent (snd (save_user u' d)) = true.
Proof.
  intros C F Hid Hmail.
  assert (K : User._id u <> None)
    by (apply keyed_id with (d := d) (e := e); [now apply consistent_keyed|exact F]).
  assert (Eu : User.email_address u = e) by now apply find_user_email with (d := d).
  destruct (find_user_saved e d u u' F K Hid) as [S _]; [congruence|]. rewrite S.
  cbn [snd].
  assert (Same : forall r, In r (users d) ->
                           (if user_has_id (User._id u') r then u' else r) = r
                           \/ ((if user_has_id (User._id u') r then u' else r) = u'
                               /\ r = u)).
  { intros r I. destruct (user_has_id (User._id u') r) eqn:X; [right|now left].
    split; [reflexivity|]. unfold user_has_id in X. apply id_eqb_eq in X.
    apply (consistent_one_row_per_key d e u r C F I). congruence. }
  assert (Keys : map User._id (map (fun r => if user_has_id (User._id u') r then u' else r)
                                   (users d)) = map User._id (users d)).
  { rewrite map_map. apply map_ext_in. intros r I.
    destruct (Same r I) as [X|[X Y]]; rewrite X; [reflexivity|]. now subst r. }
  assert (Mails : map User.email_address
                      (map (fun r => if user_has_id (User._id u') r then u' else r)
                           (users d)) = map User.email_address (users d)).
  { rewrite map_map. apply map_ext_in. intros r I.
    destruct (Same r I) as [X|[X Y]]; rewrite X; [reflexivity|]. now subst r. }
  unfold consistent in *. cbn [users tokens next_id]. now rewrite Keys, Mails.
Qed.

Lemma consistent_remove_token x d :
  consistent d = true -> consistent (remove_token x d) = true.
Proof.
  unfold consistent, remove_token. cbn [users tokens next_id]. intros C.
  repeat (apply andb_prop in C; destruct C as [C ?]).
  repeat (apply andb_true_intro; split); trivial.
  - now apply distinct_map_filter.
  - rewrite forallb_forall in *. intros k I. apply in_map_iff in I.
    destruct I as (r & E & I). apply filter_In in I. destruct I as [I _].
    match goal with H : forall x, In x (map Token._id _) -> _ |- _ => apply H end.
    rewrite <- E. now apply in_map.
Qed.





End Consistency.

Section Faults.

Context {platform : Platform}.
Import AuthenticationController.

#[local] Opaque Database.save_user Database.save_token Database.remove_token.

(** Take a leaf of a run apart: its result and the world it leaves. *)
Ltac open_leaf :=
  let E := fresh "E" in
  let Er := fresh "Er" in
  let Ew := fresh "Ew" in
  intros E; injection E as Er Ew; subst.

Ltac steady_leaf :=
  open_leaf; unfold steady in *; cbv [db snapshot] in *;
  repeat match goal with
         | H : _ && _ = true |- _ => apply andb_prop in H; destruct H
         end;
  apply andb_true_intro; split; try reflexivity;
  repeat first
         [ assumption
         | apply consistent_remove_token
         | apply consistent_save_new_token; [|reflexivity]
         | eapply consistent_update_user; [|eassumption|reflexivity|reflexivity]
         | apply consistent_save_new_user; [|assumption|reflexivity] ].

(** X12. Whatever the fault script, every method leaves a consistent
    world consistent: no two users ever share an address or a key, no two
    tokens a key. *)
Theorem every_method_keeps_the_store_consistent w :
  steady w = true ->
  (forall body, steady (snd (signIn body w)) = true)
  /\ (forall body, steady (snd (register body w)) = true)
  /\ (forall body, steady (snd (activate body w)) = true)
  /\ (forall body, steady (snd (forgetPassword body w)) = true)
  /\ (forall body, steady (snd (recover body w)) = true).
Proof.
  intros S. split; [|split; [|split; [|split]]]; intros body.
  - rewrite signIn_run. destruct w. exact S.
  - destruct (register body w) as [r w'] eqn:E. revert E.
    destruct w as [d s o tr f e], body as [gn mn em pw pc].
    split_run; steady_leaf.
  - destruct (activate body w) as [r w'] eqn:E. revert E.
    destruct w as [d s o tr f e], body as [em id].
    split_run; steady_leaf.
  - destruct (forgetPassword body w) as [r w'] eqn:E. revert E.
    destruct w as [d s o tr f e], body as [em].
    split_run; steady_leaf.
  - destruct (recover body w) as [r w'] eqn:E. revert E.
    destruct w as [d s o tr f e], body as [em id pw pc].
    split_run; steady_leaf.
Qed.

Ltac with_no_transaction_open m body w :=
  let E := fresh "E" in
  let r := fresh "r" in
  let w' := fresh "w'" in
  destruct (m body w) as [r w'] eqn:E; revert E;
  destruct w as [d s o tr f e]; cbv [snapshot] in *; subst s.

(** X13. From a world with no transaction left open and whatever the
    fault script: when register, activate, forgetPassword or recover
    throws, be it a BadRequest or the failure of a collaborator, the
    store is as it was before the call, unless it is the rollback itself
    that failed. *)
Theorem a_writer_that_throws_changes_nothing w :
  snapshot w = None ->
  (forall body,
      returned (fst (register body w)) = false ->
      rollback_failed (fst (register body w)) = false ->
      db (snd (register body w)) = db w)
  /\ (forall body,
         returned (fst (activate body w)) = false ->
         rollback_failed (fst (activate body w)) = false ->
         db (snd (activate body w)) = db w)
  /\ (forall body,
         returned (fst (forgetPassword body w)) = false ->
         rollback_failed (fst (forgetPassword body w)) = false ->
         db (snd (forgetPassword body w)) = db w)
  /\ (forall body,
         returned (fst (recover body w)) = false ->
         rollback_failed (fst (recover body w)) = false ->
         db (snd (recover body w)) = db w).
Proof.
  intros S. split; [|split; [|split]]; intros body.
  - with_no_transaction_open (@register platform) body w.
    destruct body as [gn mn em pw pc].
    split_run; open_leaf; cbn; intros; try discriminate; reflexivity.
  - with_no_transaction_open activate body w. destruct body as [em id].
    split_run; open_leaf; cbn; intros; try discriminate; reflexivity.
  - with_no_transaction_open (@forgetPassword platform) body w. destruct body as [em].
    split_run; open_leaf; cbn; intros; try discriminate; reflexivity.
  - with_no_transaction_open (@recover platform) body w.
    destruct body as [em id pw pc].
    split_run; open_leaf; cbn; intros; try discriminate; reflexivity.
Qed.

(** X14. From a world with no transaction left open: when register,
    activate or forgetPassword throws because its commit failed, the store
    is rolled back to what it was, but the message it sent stays sent. *)
Theorem a_failed_commit_keeps_the_mail w :
  snapshot w = None ->
  (forall body,
      commit_failed (fst (register body w)) = true ->
      db (snd (register body w)) = db w
      /\ exists mail, outbox (snd (register body w)) = (outbox w ++ [mail])%list)
  /\ (forall body,
         commit_failed (fst (activate body w)) = true ->
         db (snd (activate body w)) = db w
         /\ exists mail, outbox (snd (activate body w)) = (outbox w ++ [mail])%list)
  /\ (forall body,
         commit_failed (fst (forgetPassword body w)) = true ->
         db (snd (forgetPassword body w)) = db w
         /\ exists mail,
              outbox (snd (forgetPassword body w)) = (outbox w ++ [mail])%list).
Proof.
  intros S. split; [|split]; intros body.
  - with_no_transaction_open (@register platform) body w.
    destruct body as [gn mn em pw pc].
    split_run; open_leaf; cbn; intros; try discriminate; eauto.
  - with_no_transaction_open activate body w. destruct body as [em id].
    split_run; open_leaf; cbn; intros; try discriminate; eauto.
  - with_no_transaction_open (@forgetPassword platform) body w. destruct body as [em].
    split_run; open_leaf; cbn; intros; try discriminate; eauto.
Qed.



End Faults.

Section Pattern.

Import RegExp.

Lemma append_nil_r s : (s ++ EmptyString)%string = s.
Proof. induction s as [|c s IH]; simpl; [reflexivity|now rewrite IH]. Qed.

Lemma append_assoc (a b c : string) : ((a ++ b) ++ c)%string = (a ++ (b ++ c))%string.
Proof. induction a as [|x a IH]; simpl; [reflexivity|now rewrite IH]. Qed.

Lemma nullable_denotes r : nullable r = true -> denotes r EmptyString.
Proof.
  induction r; simpl; intros N; try discriminate.
  - constructor.
  - apply andb_prop in N. destruct N as [N1 N2].
    change EmptyString with (EmptyString ++ EmptyString)%string.
    constructor; auto.
  - apply orb_prop in N. destruct N as [N|N];
      [apply denotes_alt_l|apply denotes_alt_r]; auto.
  - constructor.
Qed.

Lemma denotes_void s : ~ denotes Void s.
Proof. intro D. inversion D. Qed.

Lemma seq_denotes a b s : denotes (seq a b) s -> denotes (Seq a b) s.
Proof.
  destruct a; simpl;
    try (intro D; now apply denotes_void in D);
    destruct b; simpl; trivial;
    try (intro D; now apply denotes_void in D);
    intro D; change s with (EmptyString ++ s)%string; constructor; trivial;
    constructor.
Qed.

Lemma alt_denotes a b s : denotes (alt a b) s -> denotes (Alt a b) s.
Proof.
  destruct a; simpl;
    try (intro D; now apply denotes_alt_r);
    destruct b; simpl; trivial;
    try (intro D; now apply denotes_alt_l).
Qed.

Lemma deriv_denotes r : forall c s, denotes (deriv c r) s -> denotes r (String c s).
Proof.
  induction r as [| |p|r1 IH1 r2 IH2|r1 IH1 r2 IH2|r1 IH1]; simpl; intros c s D.
  - now apply denotes_void in D.
  - now apply denotes_void in D.
  - destruct (p c) eqn:P; [|now apply denotes_void in D].
    inversion D; subst. now constructor.
  - assert (Left : forall t, denotes (seq (deriv c r1) r2) t ->
                             denotes (Seq r1 r2) (String c t)).
    { intros t X. apply seq_denotes in X. inversion X; subst.
      change (String c (s1 ++ s2)) with (String c s1 ++ s2)%string.
      constructor; auto. }
    destruct (nullable r1) eqn:N; [|now apply Left].
    apply alt_denotes in D. inversion D; subst; [now apply Left|].
    change (String c s) with (EmptyString ++ String c s)%string.
    constructor; [now apply nullable_denotes|auto].
  - apply alt_denotes in D.
    inversion D; subst; [apply denotes_alt_l|apply denotes_alt_r]; auto.
  - apply seq_denotes in D. inversion D; subst.
    change (String c (s1 ++ s2)) with (String c s1 ++ s2)%string.
    constructor; auto.
Qed.

(** What the matcher accepts is a word of the pattern. *)
Lemma matches_denotes s : forall r, matches r s = true -> denotes r s.
Proof.
  induction s as [|c s IH]; simpl; intros r M.
  - now apply nullable_denotes.
  - apply deriv_denotes. now apply IH.
Qed.

(** *** Reading a word of a pattern apart *)

Lemma denotes_seq_inv r1 r2 s :
  denotes (Seq r1 r2) s ->
  exists s1 s2, s = (s1 ++ s2)%string /\ denotes r1 s1 /\ denotes r2 s2.
Proof. intro D. inversion D; subst. eauto. Qed.

Lemma denotes_alt_inv r1 r2 s : denotes (Alt r1 r2) s -> denotes r1 s \/ denotes r2 s.
Proof. intro D. inversion D; subst; auto. Qed.

Lemma denotes_class_inv p s : denotes (Class p) s -> exists c, s = str1 c /\ p c = true.
Proof. intro D. inversion D; subst. eauto. Qed.

Lemma denotes_lit_inv n s : denotes (lit n) s -> s = str1 (chr n).
Proof.
  intro D. apply denotes_class_inv in D. destruct D as (c & E & P).
  apply N.eqb_eq in P. subst. unfold chr, code. now rewrite ascii_N_embedding.
Qed.

Lemma denotes_plus_class_inv p s :
  denotes (plus (Class p)) s -> exists c s', s = String c s' /\ p c = true.
Proof.
  intro D. apply denotes_seq_inv in D. destruct D as (s1 & s2 & E & D1 & _).
  apply denotes_class_inv in D1. destruct D1 as (c & E1 & P). subst. simpl. eauto.
Qed.

Lemma denotes_star_class p s : denotes (Star (Class p)) s -> all_chars p s = true.
Proof.
  intro D. remember (Star (Class p)) as r eqn:R.
  induction D; try discriminate; [reflexivity|].
  inversion R; subst. apply denotes_class_inv in D1.
  destruct D1 as (c & E & P). subst. simpl. rewrite P. now apply IHD2.
Qed.

Lemma last_char_append s1 s2 :
  s2 <> EmptyString -> last_char (s1 ++ s2) = last_char s2.
Proof.
  intro N. induction s1 as [|c s1 IH]; simpl; [reflexivity|].
  destruct (s1 ++ s2)%string eqn:E; [|exact IH].
  destruct s1; simpl in E; [now elim N|discriminate].
Qed.

Lemma append_nonempty_r s1 s2 : s2 <> EmptyString -> (s1 ++ s2)%string <> EmptyString.
Proof. destruct s1; simpl; [trivial|discriminate]. Qed.

Ltac nonempty := repeat apply append_nonempty_r; unfold str1; discriminate.

Lemma last_char_all p c s :
  p c = true -> all_chars p s = true ->
  exists z, last_char (String c s) = Some z /\ p z = true.
Proof.
  revert c. induction s as [|x s IH]; simpl; intros c P A; [eauto|].
  apply andb_prop in A. destruct A as [Px A].
  destruct (IH x Px A) as (z & L & Pz). exists z. split; [|exact Pz].
  destruct s; exact L.
Qed.

Lemma atom_char_not_space c : atom_char c = true -> space c = false.
Proof.
  unfold atom_char. intro A. apply negb_true_iff in A.
  apply orb_false_elim in A. tauto.
Qed.

Lemma accepted_address_ends s :
  test emailRegExp s = true ->
  (exists local_part domain,
      s = (local_part ++ "@" ++ domain)%string
      /\ local_part <> EmptyString
      /\ domain <> EmptyString)
  /\ (exists c, first_char s = Some c /\ space c = false)
  /\ (exists z, last_char s = Some z /\ (alpha z = true \/ code z = 93)).
Proof.
  intro T. apply matches_denotes in T. unfold emailRegExp in T. cbv zeta in T.
  apply denotes_seq_inv in T. destruct T as (l & rest & E & L & T).
  apply denotes_seq_inv in T. destruct T as (at_sign & d & E' & A & D).
  apply denotes_lit_inv in A. subst.
  assert (First : exists c l', l = String c l' /\ space c = false).
  { apply denotes_alt_inv in L. destruct L as [L|L].
    - apply denotes_seq_inv in L. destruct L as (a & b & E & La & _).
      apply denotes_plus_class_inv in La. destruct La as (c & a' & Ea & P).
      subst. simpl. exists c. eexists. split; [reflexivity|].
      now apply atom_char_not_space.
    - apply denotes_seq_inv in L. destruct L as (q & b & E & Lq & _).
      apply denotes_lit_inv in Lq. subst. simpl. eexists. eexists.
      split; reflexivity. }
  assert (Last : d <> EmptyString
                 /\ exists z, last_char d = Some z /\ (alpha z = true \/ code z = 93)).
  { apply denotes_alt_inv in D. destruct D as [D|D].
    - repeat (apply denotes_seq_inv in D;
              let a := fresh "a" in
              let b := fresh "b" in
              let Da := fresh "Da" in
              destruct D as (a & b & ? & Da & D); subst).
      apply denotes_lit_inv in D. subst. split.
      + apply denotes_lit_inv in Da. subst. cbn. discriminate.
      + exists (chr 93). split; [|now right].
        repeat (rewrite last_char_append by nonempty). reflexivity.
    - apply denotes_seq_inv in D. destruct D as (labels & tld & E & _ & D). subst.
      apply denotes_seq_inv in D. destruct D as (x & more & E & Dx & D). subst.
      apply denotes_seq_inv in D. destruct D as (y & tail & E & Dy & D). subst.
      apply denotes_class_inv in Dx. destruct Dx as (cx & Ex & Px).
      apply denotes_class_inv in Dy. destruct Dy as (cy & Ey & Py).
      apply denotes_star_class in D. subst. split.
      + destruct labels; discriminate.
      + destruct (last_char_all alpha cy tail Py D) as (z & Lz & Pz).
        exists z. split; [|now left].
        rewrite last_char_append by (unfold str1; cbn; discriminate).
        change (str1 cx ++ str1 cy ++ tail)%string with (String cx (String cy tail)).
        exact Lz. }
  destruct First as (c & l' & El & Sc). destruct Last as (Nd & z & Lz & Pz).
  repeat split.
  - exists l, d. subst. repeat split; trivial. discriminate.
  - subst. simpl. eauto.
  - exists z. split; [|exact Pz].
    rewrite last_char_append by (unfold str1; cbn; discriminate).
    change (str1 (chr 64) ++ d)%string with (String (chr 64) d).
    destruct d; [now elim Nd|exact Lz].
Qed.

Lemma trimStart_keeps c s : space c = false -> trimStart (String c s) = String c s.
Proof. simpl. now intros ->. Qed.

Lemma trimEnd_keeps s :
  (exists z, last_char s = Some z /\ space z = false) -> trimEnd s = s.
Proof.
  induction s as [|c s IH]; simpl; intros (z & L & S); [discriminate|].
  destruct s as [|c' s'].
  - inversion L; subst. simpl. now rewrite S.
  - rewrite IH by eauto. reflexivity.
Qed.

Lemma alpha_not_space z : alpha z = true -> space z = false.
Proof.
  destruct z as [b0 b1 b2 b3 b4 b5 b6 b7].
  destruct b0, b1, b2, b3, b4, b5, b6, b7; intro H; vm_compute in H |- *;
    congruence.
Qed.

Lemma bracket_not_space z : code z = 93 -> space z = false.
Proof.
  destruct z as [b0 b1 b2 b3 b4 b5 b6 b7].
  destruct b0, b1, b2, b3, b4, b5, b6, b7; intro H; vm_compute in H |- *;
    congruence.
Qed.

(** What the pattern accepts has nothing to trim. *)
Lemma accepted_is_trimmed s : test emailRegExp s = true -> trim s = s.
Proof.
  intro T. destruct (accepted_address_ends s T) as (_ & (c & F & Sc) & (z & L & Pz)).
  destruct s as [|c0 s]; [discriminate|]. inversion F; subst c0.
  unfold trim. rewrite trimStart_keeps by exact Sc. apply trimEnd_keeps.
  exists z. split; [exact L|].
  destruct Pz; [now apply alpha_not_space|now apply bracket_not_space].
Qed.

(** X16. An address that the pattern of register accepts is a non-empty
    local part, an at sign and a non-empty domain; it begins with a code
    unit that is not whitespace and ends with a letter or a closing square
    bracket, so it has no whitespace at either end: trimming it changes
    nothing. *)
Theorem an_accepted_address_has_its_parts s :
  test emailRegExp s = true ->
  (exists local_part domain,
      s = (local_part ++ "@" ++ domain)%string
      /\ local_part <> EmptyString
      /\ domain <> EmptyString)
  /\ (exists c, first_char s = Some c /\ space c = false)
  /\ (exists z, last_char s = Some z /\ (alpha z = true \/ code z = 93))
  /\ trim s = s.
Proof.
  intro T. destruct (accepted_address_ends s T) as (Parts & First & Last).
  exact (conj Parts (conj First (conj Last (accepted_is_trimmed s T)))).
Qed.

(** *** Every word of the pattern is accepted *)

Lemma append_empty s1 s2 :
  (s1 ++ s2)%string = EmptyString -> s1 = EmptyString /\ s2 = EmptyString.
Proof. destruct s1; simpl; [auto|discriminate]. Qed.

Lemma denotes_nullable r s : denotes r s -> s = EmptyString -> nullable r = true.
Proof.
  induction 1; simpl; intros E; trivial; try discriminate.
  - apply append_empty in E. destruct E. now rewrite IHdenotes1, IHdenotes2.
  - now rewrite IHdenotes.
  - rewrite IHdenotes by trivial. apply orb_true_r.
Qed.

Lemma denotes_seq_smart a b s : denotes (Seq a b) s -> denotes (seq a b) s.
Proof.
  intro D. inversion D as [| |r1 r2 s1 s2 Da Db| | | |]; subst.
  destruct a; simpl;
    try (now apply denotes_void in Da);
    destruct b; simpl; trivial;
    try (now apply denotes_void in Db);
    inversion Da; subst; exact Db.
Qed.

Lemma denotes_alt_smart a b s : denotes (Alt a b) s -> denotes (alt a b) s.
Proof.
  intro D. inversion D as [| | |r1 r2 s' Da|r1 r2 s' Db| |]; subst.
  - destruct a; simpl; try (now apply denotes_void in Da);
      destruct b; simpl; trivial; now apply denotes_alt_l.
  - destruct a; simpl; trivial;
      destruct b; simpl; try (now apply denotes_void in Db); now apply denotes_alt_r.
Qed.

Lemma denotes_deriv r w :
  denotes r w -> forall c s, w = String c s -> denotes (deriv c r) s.
Proof.
  induction 1 as [|p x P|r1 r2 s1 s2 D1 IH1 D2 IH2|r1 r2 s' D IH|r1 r2 s' D IH
                  |r|r s1 s2 D1 IH1 D2 IH2]; intros c s E; simpl.
  - discriminate.
  - inversion E; subst. rewrite P. constructor.
  - destruct s1 as [|x s1'].
    + simpl in E. rewrite (denotes_nullable _ _ D1 eq_refl).
      apply denotes_alt_smart, denotes_alt_r. now apply IH2.
    + simpl in E. inversion E; subst.
      assert (X : denotes (seq (deriv c r1) r2) (s1' ++ s2)%string)
        by (apply denotes_seq_smart; constructor; auto).
      destruct (nullable r1); [|exact X].
      now apply denotes_alt_smart, denotes_alt_l.
  - apply denotes_alt_smart, denotes_alt_l. now apply IH.
  - apply denotes_alt_smart, denotes_alt_r. now apply IH.
  - discriminate.
  - destruct s1 as [|x s1'].
    + simpl in E. now apply IH2.
    + simpl in E. inversion E; subst.
      apply denotes_seq_smart. constructor; auto.
Qed.

Lemma denotes_matches s : forall r, denotes r s -> matches r s = true.
Proof.
  induction s as [|c s IH]; simpl; intros r D.
  - now apply denotes_nullable with (s := EmptyString).
  - apply IH. now apply denotes_deriv with (w := String c s).
Qed.

Lemma all_chars_star p s : all_chars p s = true -> denotes (Star (Class p)) s.
Proof.
  induction s as [|c s IH]; simpl; intro A; [constructor|].
  apply andb_prop in A. destruct A as [P A].
  change (String c s) with (str1 c ++ s)%string.
  constructor; [now constructor|auto].
Qed.

Lemma all_chars_plus p s :
  s <> EmptyString -> all_chars p s = true -> denotes (plus (Class p)) s.
Proof.
  destruct s as [|c s]; [now intros []|]. simpl. intros _ A.
  apply andb_prop in A. destruct A as [P A].
  change (String c s) with (str1 c ++ s)%string.
  constructor; [now constructor|now apply all_chars_star].
Qed.

(** X17. A name of one or more code units of the local part's class, an
    at sign, a host label of one or more letters, digits or hyphens, a
    period and two or more letters: such an address is accepted by the
    pattern of register. *)
Theorem a_plain_address_is_accepted name host tld :
  name <> EmptyString ->
  all_chars atom_char name = true ->
  host <> EmptyString ->
  all_chars label_char host = true ->
  all_chars alpha tld = true ->
  (2 <= String.length tld)%nat ->
  test emailRegExp (name ++ "@" ++ host ++ "." ++ tld) = true.
Proof.
  intros Nn An Nh Ah At Lt. apply denotes_matches. unfold emailRegExp. cbv zeta.
  constructor.
  - apply denotes_alt_l. rewrite <- (append_nil_r name).
    constructor; [now apply all_chars_plus|constructor].
  - change ("@" ++ host ++ "." ++ tld)%string
      with (str1 (chr 64) ++ (host ++ "." ++ tld))%string.
    constructor; [now constructor|]. apply denotes_alt_r.
    rewrite <- append_assoc. constructor.
    + rewrite <- (append_nil_r (host ++ ".")).
      constructor; [|constructor].
      constructor; [now apply all_chars_plus|].
      change "."%string with (str1 (chr 46)). now constructor.
    + destruct tld as [|a [|b rest]]; simpl in Lt; try lia.
      simpl in At. apply andb_prop in At. destruct At as [Pa At].
      apply andb_prop in At. destruct At as [Pb At].
      change (String a (String b rest)) with (str1 a ++ str1 b ++ rest)%string.
      constructor; [now constructor|].
      constructor; [now constructor|now apply all_chars_star].
Qed.

End Pattern.

(** * The application *)

Section Mounting.

Import App.

Lemma lower_lower c : lower (lower c) = lower c.
Proof.
  destruct c as [b0 b1 b2 b3 b4 b5 b6 b7].
  destruct b0, b1, b2, b3, b4, b5, b6, b7; reflexivity.
Qed.

Lemma toLowerCase_idempotent s : toLowerCase (toLowerCase s) = toLowerCase s.
Proof. induction s as [|c s IH]; simpl; [reflexivity|]. now rewrite lower_lower, IH. Qed.

Lemma open_after_cons isActive entry rest :
  open_after isActive (entry :: rest)
  = ((if isActive && negb (useAuth (snd entry)) then [endpoint (snd entry)] else [])
       ++ open_after isActive rest)%list.
Proof.
  unfold open_after. destruct isActive; [|reflexivity]. simpl.
  destruct (useAuth (snd entry)); reflexivity.
Qed.

(** The loop, turn by turn, adds to what was mounted the entries, lines
    and routes of the services in their order. *)
Lemma mounting_from isActive Services : forall m,
  fold_left (mount isActive) Services m
  = mkMounted (services m ++ map (entry_after isActive) Services)
              (unprotectedEndpoints m ++ open_after isActive Services)
              (logged m ++ map (line_after isActive) Services)
              (routes m ++ map (route_after isActive) Services).
Proof.
  induction Services as [|entry rest IH]; intros m; simpl.
  - unfold open_after. destruct isActive, m; simpl; now rewrite !app_nil_r.
  - rewrite IH, open_after_cons. destruct entry as [key service].
    unfold mount, entry_after, route_after, line_after, line_of.
    destruct service as [e mth [|] h], isActive;
      cbn [fst snd negb andb services unprotectedEndpoints logged routes
           useAuth set_useAuth method endpoint handler map app];
      rewrite <- ?app_assoc; reflexivity.
Qed.

Lemma mounted isActive Services :
  mount_all isActive Services
  = mkMounted (map (entry_after isActive) Services)
              (open_after isActive Services)
              (map (line_after isActive) Services
                   ++ ["Added Main service to endpoint *."])
              (map (route_after isActive) Services).
Proof. unfold mount_all. now rewrite mounting_from. Qed.

(** X18. With JWT switched off, whatever the services ask for: every
    route is mounted unguarded, every entry of Services is left with
    useAuth false, no line of the log carries the PROTECTED mark, and
    unprotectedEndpoints stays empty, although every endpoint is
    unprotected. *)
Theorem jwt_off_guards_nothing Services :
  let m := mount_all false Services in
  forallb (fun route => negb (guarded route)) (routes m) = true
  /\ forallb (fun entry => negb (useAuth (snd entry))) (services m) = true
  /\ unprotectedEndpoints m = []
  /\ logged m
     = (map (fun entry => line_of (fst entry) (snd entry) false) Services
            ++ ["Added Main service to endpoint *."])%list.
Proof.
  cbv zeta. rewrite mounted. cbn [routes services unprotectedEndpoints logged].
  repeat split.
  - rewrite forallb_forall. intros r I. apply in_map_iff in I.
    destruct I as (entry & E & _). now subst.
  - rewrite forallb_forall. intros x I. apply in_map_iff in I.
    destruct I as (entry & E & _). now subst.
Qed.

(** X19. With JWT switched on: a route is mounted guarded exactly when
    its service asks for it; unprotectedEndpoints lists, in order, the
    endpoints of the services that do not, and only those; the entries of
    Services are left as they were; a line of the log carries the PROTECTED
    mark exactly for the guarded routes. *)
Theorem jwt_on_guards_what_asks_for_it Services :
  let m := mount_all true Services in
  map guarded (routes m) = map (fun entry => useAuth (snd entry)) Services
  /\ unprotectedEndpoints m
     = map endpoint (filter (fun service => negb (useAuth service)) (map snd Services))
  /\ services m = Services
  /\ logged m
     = (map (fun entry => line_of (fst entry) (snd entry) (useAuth (snd entry))) Services
            ++ ["Added Main service to endpoint *."])%list.
Proof.
  cbv zeta. rewrite mounted. cbn [routes services unprotectedEndpoints logged].
  repeat split.
  - rewrite map_map. reflexivity.
  - rewrite <- (map_id Services) at 2. apply map_ext. now intros [key service].
Qed.

(** X20. In either mode the router gets one call for each service, in the
    order of Services, with the service's endpoint and handler, and under
    the lower-case form of its method: two services whose methods differ
    only in the case of their letters are mounted under the same verb. *)
Theorem every_service_is_mounted_once isActive Services :
  let m := mount_all isActive Services in
  map path (routes m) = map (fun entry => endpoint (snd entry)) Services
  /\ map controller (routes m) = map (fun entry => handler (snd entry)) Services
  /\ map verb (routes m) = map (fun entry => toLowerCase (method (snd entry))) Services
  /\ forallb (fun route => lowercase (verb route)) (routes m) = true.
Proof.
  cbv zeta. rewrite mounted. cbn [routes]. rewrite !map_map. repeat split.
  rewrite forallb_forall. intros r I. apply in_map_iff in I.
  destruct I as (entry & E & _). subst. unfold lowercase. cbn [verb route_after].
  rewrite toLowerCase_idempotent. apply String.eqb_refl.
Qed.

End Mounting.

(** * The earlier handlers *)

Ltac legacy_run :=
  cbv beta iota zeta delta
    [Legacy.registerUser Legacy.signInUser
     Legacy.try_catch_finally Legacy.bind Legacy.ret Legacy.call
     Legacy.validateRequest Legacy.sendErrorResponse Legacy.sendSuccessResponse
     Legacy.initialise Legacy.close Legacy.startTransaction Legacy.commit
     Legacy.rollback Legacy.fetchOne Legacy.create Legacy.generateShort
     Legacy.getTime Legacy.hashSync
     Legacy.set_rows Legacy.set_snapshot Legacy.set_replies Legacy.set_trace
     Legacy.set_faults Legacy.set_entropy
     Legacy.rows Legacy.snapshot Legacy.replies Legacy.trace Legacy.faults
     Legacy.entropy Legacy.clock
     Legacy.register_given_name Legacy.register_maiden_name
     Legacy.register_email_address Legacy.register_password
     Legacy.signIn_email_address Legacy.signIn_password
     negb];
  cbn [hd tl fst snd].

Ltac legacy_split_run :=
  repeat (legacy_run;
          match goal with
          | H : ?x = _ |- context [match ?x with _ => _ end] => rewrite H
          | |- context [match ?x with _ => _ end] =>
              lazymatch x with
              | context [match _ with _ => _ end] => fail
              | _ => destruct x eqn:?
              end
          end).

Section Earlier.

Context {platform : Platform} {signer : Legacy.Signer}.
Import Legacy.

(** X21. With no helper throwing and a user stored for the address,
    signInUser replies once: with the signed token of the user, its
    password left out, when the password verifies against the stored
    digest, and with the error of status 400 and the generic message when
    it does not. *)
Theorem signInUser_checks_the_password w request user :
  reliable w ->
  find (fun u => String.eqb (email_address u) (signIn_email_address request)) (rows w)
  = Some user ->
  replies_sent (signInUser request) w
  = [if compareSync (signIn_password request) (password user)
     then SuccessResponse (Token (jwt_sign (without_password user) secretKey))
     else ErrorResponse (Crafted sign_in_failed 400)].
Proof.
  intros R F. unfold replies_sent.
  destruct w as [rs s rp tr f e c], request as [em pw].
  cbv [reliable faults] in R. cbv [rows signIn_email_address] in F. subst f.
  legacy_split_run; legacy_run; apply skipn_prefix.
Qed.

Ltac legacy_calls :=
  legacy_run; flatten; rewrite ?skipn_prefix; repeat split; reflexivity.

(** X22. Whatever the fault script, registerUser and signInUser end
    every run, accepted, rejected or thrown out of, on the one call of
    close that they make. *)
Theorem the_earlier_handlers_always_close w :
  (forall request,
      last_is closes (calls_made (registerUser request) w) = true
      /\ count closes (calls_made (registerUser request) w) = 1%nat)
  /\ (forall request,
         last_is closes (calls_made (signInUser request) w) = true
         /\ count closes (calls_made (signInUser request) w) = 1%nat).
Proof.
  split; intros request; unfold calls_made; destruct w as [rs s rp tr f e c].
  - destruct request as [gn mn em pw]. legacy_split_run; legacy_calls.
  - destruct request as [em pw]. legacy_split_run; legacy_calls.
Qed.

(** X23. With no helper throwing, a sign-in that signInUser rejects (no
    user for the address, or a password that does not verify) and a
    registration that registerUser rejects because the address is taken
    have opened a transaction and close the model without having committed
    it or rolled it back. *)
Theorem a_rejection_settles_no_transaction w :
  reliable w ->
  (forall request,
      match find (fun u => String.eqb (email_address u) (signIn_email_address request))
                 (rows w) with
      | Some user => compareSync (signIn_password request) (password user) = false
      | None => True
      end ->
      calls_made (signInUser request) w
      = [ValidateRequest ["email_address"; "password"]; Initialise; StartTransaction;
         FetchOne (signIn_email_address request); SendErrorResponse; Close])
  /\ (forall request user,
         test emailRegExp (trim (register_email_address request)) = true ->
         find (fun u => String.eqb (email_address u) (register_email_address request))
              (rows w) = Some user ->
         calls_made (registerUser request) w
         = [ValidateRequest ["given_name"; "maiden_name"; "email_address"; "password"];
            Initialise; StartTransaction;
            FetchOne (register_email_address request); SendErrorResponse; Close]
         /\ replies_sent (registerUser request) w
            = [ErrorResponse
                 (Crafted (taken_address (register_email_address request)) 400)]
         /\ rows (snd (registerUser request w)) = rows w).
Proof.
  intros R. destruct w as [rs s rp tr f e c]. cbv [reliable faults] in R. subst f.
  split.
  - intros [em pw]. cbv [rows signIn_email_address signIn_password]. intros F.
    unfold calls_made. legacy_run.
    destruct (find _ rs) as [user|]; legacy_run; [rewrite F; legacy_run|];
      legacy_calls.
  - intros [gn mn em pw] user. cbv [rows register_email_address]. intros T F.
    unfold calls_made, replies_sent. legacy_split_run. legacy_calls.
Qed.

(** X24. With no helper throwing, registerUser decides on the trimmed
    address but looks up and stores the address as it was given: when the
    trimmed address matches the pattern and no user has the given address,
    it stores one more user, with the given address, the identifier
    drawn, the bcrypt digest of the password and the time of the call, and
    replies with the message that names the user. An address given with
    whitespace around it is stored with it, though the pattern rejects
    it. *)
Theorem registerUser_stores_the_address_as_given w request :
  reliable w ->
  test emailRegExp (trim (register_email_address request)) = true ->
  find (fun u => String.eqb (email_address u) (register_email_address request))
       (rows w) = None ->
  let user :=
    mkIUser (entropy w) (register_given_name request) (register_maiden_name request)
            (register_email_address request)
            (bcrypt (register_password request) 10 (N.succ (entropy w)))
            (clock w) None in
  rows (snd (registerUser request w)) = (rows w ++ [user])%list
  /\ replies_sent (registerUser request) w = [SuccessResponse (Message (welcome user))]
  /\ (trim (register_email_address request) <> register_email_address request ->
      test emailRegExp (register_email_address request) = false).
Proof.
  intros R T F. cbv zeta. split; [|split].
  - destruct w as [rs s rp tr f e c], request as [gn mn em pw].
    cbv [reliable faults] in R. cbv [rows register_email_address] in *. subst f.
    legacy_split_run. legacy_run. reflexivity.
  - unfold replies_sent. destruct w as [rs s rp tr f e c], request as [gn mn em pw].
    cbv [reliable faults] in R. cbv [rows register_email_address] in *. subst f.
    legacy_split_run. legacy_run. apply skipn_prefix.
  - intros N. destruct (test emailRegExp (register_email_address request)) eqn:A;
      [|reflexivity].
    elim N. now apply accepted_is_trimmed.
Qed.

(** X25. With no helper throwing, a registration whose trimmed address
    does not match the pattern is rejected by registerUser before the
    model is touched: the request is validated, the error of status 400
    that names the address as given is sent, and close is called on a
    model that was never initialised; the rows are as before. *)
Theorem registerUser_rejects_before_the_model w request :
  reliable w ->
  test emailRegExp (trim (register_email_address request)) = false ->
  calls_made (registerUser request) w
  = [ValidateRequest ["given_name"; "maiden_name"; "email_address"; "password"];
     SendErrorResponse; Close]
  /\ replies_sent (registerUser request) w
     = [ErrorResponse (Crafted (invalid_address (register_email_address request)) 400)]
  /\ rows (snd (registerUser request w)) = rows w.
Proof.
  intros R T. unfold calls_made, replies_sent.
  destruct w as [rs s rp tr f e c], request as [gn mn em pw].
  cbv [reliable faults] in R. cbv [register_email_address] in T. subst f.
  legacy_split_run. legacy_calls.
Qed.

(** X26. Whatever the fault script, a run of registerUser or of
    signInUser sends at most one response; when no helper throws it sends
    exactly one. *)
Theorem the_earlier_handlers_reply_once w :
  (forall request,
      (List.length (replies_sent (registerUser request) w) <= 1)%nat
      /\ (reliable w ->
          List.length (replies_sent (registerUser request) w) = 1%nat))
  /\ (forall request,
         (List.length (replies_sent (signInUser request) w) <= 1)%nat
         /\ (reliable w ->
             List.length (replies_sent (signInUser request) w) = 1%nat)).
Proof.
  split; intros request; unfold replies_sent, reliable;
    destruct w as [rs s rp tr f e c].
  - destruct request as [gn mn em pw].
    legacy_split_run; legacy_run; rewrite ?skipn_prefix, ?skipn_all;
      cbn [List.length]; (split; [lia|]); intros R; subst;
      cbn in *; congruence.
  - destruct request as [em pw].
    legacy_split_run; legacy_run; rewrite ?skipn_prefix, ?skipn_all;
      cbn [List.length]; (split; [lia|]); intros R; subst;
      cbn in *; congruence.
Qed.

End Earlier.

(** ** The properties at work on the demonstration platform *)

Import AuthenticationController.

#[local] Existing Instance Demo.platform.

Example a_recovery_token_activates :
  Database.tokens (db Demo.ann_forgot) = [Demo.ann_token; Token.make (Some 3) (Some 1)]
  /\ fst (activate (mkActivateBody "ann@x.com" 3)
                   Demo.ann_forgot)
     = Return activated.
Proof. vm_compute. split; reflexivity. Qed.

Example an_activation_token_recovers :
  fst (recover (platform := Demo.platform) Demo.ann_recovers Demo.ann_registered)
  = Return recovered.
Proof. vm_compute. reflexivity. Qed.

Example a_failed_mail_rolls_the_registration_back :
  let w := set_faults [false; false; false; false; true] initial in
  register (platform := Demo.platform) Demo.ann w
  = (Throw (Failed (Send (activation_mail Demo.ann_user
                            "https://mycashier.pw/activate?email_address=ann@x.com&token=2"))),
     mkWorld Database.empty None []
             [StartTransaction; FindOneUser "ann@x.com";
              SaveUser (User.set__id None Demo.ann_user);
              SaveToken (Token.make None (Some 1));
              Send (activation_mail Demo.ann_user
                      "https://mycashier.pw/activate?email_address=ann@x.com&token=2");
              Rollback]
             [] 1).
Proof. vm_compute. reflexivity. Qed.

Lemma signIn_refuses_the_right_password_witness :
  reliable Demo.ann_registered
  /\ Database.find_user "ann@x.com" (db Demo.ann_registered) = Some Demo.ann_user
  /\ compareSync (Platform := Demo.platform) "Secret123!" (User.password Demo.ann_user)
     = true
  /\ fst (signIn (platform := Demo.platform) (mkSignInBody "ann@x.com" "Secret123!")
                 Demo.ann_registered)
     = Throw (BadRequest sign_in_failed).
Proof.
  assert (R : reliable Demo.ann_registered) by (vm_compute; reflexivity).
  assert (F : Database.find_user "ann@x.com" (db Demo.ann_registered)
              = Some Demo.ann_user) by (vm_compute; reflexivity).
  assert (V : compareSync (Platform := Demo.platform) "Secret123!"
                          (User.password Demo.ann_user) = true)
    by (vm_compute; reflexivity).
  exact (conj R (conj F (conj V
           (signIn_refuses_the_right_password Demo.ann_registered "ann@x.com"
              "Secret123!" Demo.ann_user R F V)))).
Defined.

Lemma signIn_admits_a_wrong_password_witness :
  reliable Demo.ann_registered
  /\ Database.find_user "ann@x.com" (db Demo.ann_registered) = Some Demo.ann_user
  /\ compareSync (Platform := Demo.platform) "guess" (User.password Demo.ann_user)
     = false
  /\ fst (signIn (platform := Demo.platform) (mkSignInBody "ann@x.com" "guess")
                 Demo.ann_registered)
     = Return (mkSignInResponse
                 (sign (Platform := Demo.platform) (without_password Demo.ann_user)
                       jwt_secret)).
Proof.
  assert (R : reliable Demo.ann_registered) by (vm_compute; reflexivity).
  assert (F : Database.find_user "ann@x.com" (db Demo.ann_registered)
              = Some Demo.ann_user) by (vm_compute; reflexivity).
  assert (V : compareSync (Platform := Demo.platform) "guess"
                          (User.password Demo.ann_user) = false)
    by (vm_compute; reflexivity).
  exact (conj R (conj F (conj V
           (signIn_admits_a_wrong_password Demo.ann_registered "ann@x.com"
              "guess" Demo.ann_user R F V)))).
Defined.

(** C3, as stated, fails: in the empty store no User has the address, and
    none of the three methods throws a NotFound. *)
Lemma unknown_account_is_not_a_NotFound :
  Database.find_user "ghost@x.com" (db initial) = None
  /\ throws_NotFound
       (fst (activate (mkActivateBody "ghost@x.com" 1)
                      initial)) = false
  /\ throws_NotFound
       (fst (forgetPassword (platform := Demo.platform)
                            (mkForgetPasswordBody "ghost@x.com") initial)) = false
  /\ throws_NotFound
       (fst (recover (platform := Demo.platform)
                     (mkRecoverBody "ghost@x.com" 1 "pw" "pw") initial)) = false.
Proof. vm_compute. repeat split. Qed.

Lemma unknown_account_is_a_BadRequest_witness :
  reliable initial
  /\ Database.find_user "ghost@x.com" (db initial) = None
  /\ fst (activate (mkActivateBody "ghost@x.com" 1) initial)
     = Throw (BadRequest (no_account "ghost@x.com"))
  /\ fst (forgetPassword (platform := Demo.platform)
                         (mkForgetPasswordBody "ghost@x.com") initial)
     = Throw (BadRequest (no_account "ghost@x.com"))
  /\ fst (recover (platform := Demo.platform)
                  (mkRecoverBody "ghost@x.com" 1 "pw" "pw") initial)
     = Throw (BadRequest (no_account "ghost@x.com")).
Proof.
  assert (R : reliable initial) by reflexivity.
  assert (F : Database.find_user "ghost@x.com" (db initial) = None) by reflexivity.
  destruct (unknown_account_is_a_BadRequest (platform := Demo.platform)
              initial "ghost@x.com" R F) as (A & G & C).
  exact (conj R (conj F (conj (A 1) (conj G (C 1 "pw" "pw"))))).
Defined.

Lemma register_creates_one_account_witness :
  reliable initial
  /\ test emailRegExp (register_email_address Demo.ann) = true
  /\ Database.find_user (register_email_address Demo.ann) (db initial) = None
  /\ register_password Demo.ann = register_password_confirmation Demo.ann
  /\ fst (register (platform := Demo.platform) Demo.ann initial) = Return registered
  /\ Database.users (db Demo.ann_registered) = [Demo.ann_user]
  /\ Database.tokens (db Demo.ann_registered) = [Demo.ann_token]
  /\ List.length (outbox Demo.ann_registered) = 1%nat.
Proof.
  assert (R : reliable initial) by reflexivity.
  assert (T : test emailRegExp (register_email_address Demo.ann) = true)
    by (vm_compute; reflexivity).
  assert (F : Database.find_user (register_email_address Demo.ann) (db initial) = None)
    by reflexivity.
  assert (E : register_password Demo.ann = register_password_confirmation Demo.ann)
    by reflexivity.
  destruct (register_creates_one_account (platform := Demo.platform)
              initial Demo.ann R T F E) as (A & U & K & O & _).
  refine (conj R (conj T (conj F (conj E (conj A (conj U (conj K _))))))).
  unfold Demo.ann_registered. rewrite O. reflexivity.
Defined.

Lemma register_mismatch_changes_nothing_witness :
  reliable initial
  /\ test emailRegExp (register_email_address Demo.ann_mistypes) = true
  /\ Database.find_user (register_email_address Demo.ann_mistypes) (db initial) = None
  /\ register_password Demo.ann_mistypes
     <> register_password_confirmation Demo.ann_mistypes
  /\ fst (register (platform := Demo.platform) Demo.ann_mistypes initial)
     = Throw (BadRequest no_match)
  /\ db (snd (register (platform := Demo.platform) Demo.ann_mistypes initial))
     = Database.empty
  /\ outbox (snd (register (platform := Demo.platform) Demo.ann_mistypes initial)) = [].
Proof.
  assert (R : reliable initial) by reflexivity.
  assert (T : test emailRegExp (register_email_address Demo.ann_mistypes) = true)
    by (vm_compute; reflexivity).
  assert (F : Database.find_user (register_email_address Demo.ann_mistypes) (db initial)
              = None) by reflexivity.
  assert (E : register_password Demo.ann_mistypes
              <> register_password_confirmation Demo.ann_mistypes)
    by (simpl; discriminate).
  destruct (register_mismatch_changes_nothing (platform := Demo.platform)
              initial Demo.ann_mistypes R T F E) as (A & D & O & _).
  exact (conj R (conj T (conj F (conj E (conj A (conj D O)))))).
Defined.

Lemma activate_refuses_a_foreign_token_witness :
  reliable Demo.both_registered
  /\ Database.find_user "ann@x.com" (db Demo.both_registered) = Some Demo.ann_user
  /\ Database.find_token 4 (db Demo.both_registered) = Some Demo.bob_token
  /\ Token.user_id Demo.bob_token <> User._id Demo.ann_user
  /\ fst (activate (mkActivateBody "ann@x.com" 4) Demo.both_registered)
     = Throw (BadRequest bad_activation_token)
  /\ db (snd (activate (mkActivateBody "ann@x.com" 4) Demo.both_registered))
     = db Demo.both_registered
  /\ Database.find_user "ann@x.com"
       (db (snd (activate (mkActivateBody "ann@x.com" 4) Demo.both_registered)))
     = Some Demo.ann_user.
Proof.
  assert (R : reliable Demo.both_registered) by (vm_compute; reflexivity).
  assert (F : Database.find_user "ann@x.com" (db Demo.both_registered)
              = Some Demo.ann_user) by (vm_compute; reflexivity).
  assert (K : Database.find_token 4 (db Demo.both_registered) = Some Demo.bob_token)
    by (vm_compute; reflexivity).
  assert (O : Token.user_id Demo.bob_token <> User._id Demo.ann_user)
    by (simpl; discriminate).
  exact (conj R (conj F (conj K (conj O
           (activate_refuses_a_foreign_token Demo.both_registered "ann@x.com" 4
              Demo.ann_user Demo.bob_token R F K O))))).
Defined.

Lemma activate_consumes_the_token_witness :
  keyed (db Demo.ann_registered) = true
  /\ activate Demo.ann_activates Demo.ann_registered
     = (Return activated, snd (activate Demo.ann_activates Demo.ann_registered))
  /\ Database.find_token 2 (db (snd (activate Demo.ann_activates Demo.ann_registered)))
     = None
  /\ (exists user,
         Database.find_user "ann@x.com"
           (db (snd (activate Demo.ann_activates Demo.ann_registered))) = Some user
         /\ User.is_activated user = true)
  /\ returned (fst (activate Demo.ann_activates
                      (snd (activate Demo.ann_activates Demo.ann_registered))))
     = false.
Proof.
  assert (K : keyed (db Demo.ann_registered) = true) by (vm_compute; reflexivity).
  assert (A : activate Demo.ann_activates Demo.ann_registered
              = (Return activated, snd (activate Demo.ann_activates Demo.ann_registered)))
    by (vm_compute; reflexivity).
  exact (conj K (conj A
           (activate_consumes_the_token Demo.ann_registered Demo.ann_activates
              activated _ K A))).
Defined.

Lemma recover_then_signIn_refuses_the_new_password_witness :
  reliable Demo.ann_registered
  /\ keyed (db Demo.ann_registered) = true
  /\ recover Demo.ann_recovers Demo.ann_registered
     = (Return recovered, snd (recover Demo.ann_recovers Demo.ann_registered))
  /\ fst (signIn (mkSignInBody "ann@x.com" "Fresh456?")
                 (snd (recover Demo.ann_recovers Demo.ann_registered)))
     = Throw (BadRequest sign_in_failed)
  /\ returned (fst (signIn (mkSignInBody "ann@x.com" "Secret123!")
                           (snd (recover Demo.ann_recovers Demo.ann_registered))))
     = true
  /\ Database.find_token 2 (db (snd (recover Demo.ann_recovers Demo.ann_registered)))
     = None.
Proof.
  assert (R : reliable Demo.ann_registered) by (vm_compute; reflexivity).
  assert (K : keyed (db Demo.ann_registered) = true) by (vm_compute; reflexivity).
  assert (A : recover Demo.ann_recovers Demo.ann_registered
              = (Return recovered, snd (recover Demo.ann_recovers Demo.ann_registered)))
    by (vm_compute; reflexivity).
  destruct (recover_then_signIn_refuses_the_new_password
              Demo.ann_registered Demo.ann_recovers recovered _ R K A) as (N & O & G).
  assert (V : compareSync "Secret123!"
                (bcrypt (recover_password Demo.ann_recovers) 10
                        (entropy Demo.ann_registered)) = false)
    by (vm_compute; reflexivity).
  exact (conj R (conj K (conj A (conj N (conj (O "Secret123!" V) G))))).
Defined.

Lemma tokens_are_accepted_on_owner_alone_witness :
  reliable Demo.ann_registered
  /\ Database.find_user "ann@x.com" (db Demo.ann_registered) = Some Demo.ann_user
  /\ (returned (fst (activate (mkActivateBody "ann@x.com" 2) Demo.ann_registered)) = true
      <-> exists token,
           Database.find_token 2 (db Demo.ann_registered) = Some token
           /\ Token.user_id token = User._id Demo.ann_user)
  /\ (forall password,
         returned (fst (recover (mkRecoverBody "ann@x.com" 2 password password)
                                Demo.ann_registered)) = true
         <-> exists token,
              Database.find_token 2 (db Demo.ann_registered) = Some token
              /\ Token.user_id token = User._id Demo.ann_user).
Proof.
  assert (R : reliable Demo.ann_registered) by (vm_compute; reflexivity).
  assert (F : Database.find_user "ann@x.com" (db Demo.ann_registered)
              = Some Demo.ann_user) by (vm_compute; reflexivity).
  exact (conj R (conj F
           (tokens_are_accepted_on_owner_alone Demo.ann_registered "ann@x.com" 2
              Demo.ann_user R F))).
Defined.

(** C2, as stated, fails on signIn: neither a run that returns nor a run
    that throws keeps the transaction discipline; each makes the lookup
    its only call. *)
Lemma signIn_keeps_no_discipline :
  (returned (fst (signIn (mkSignInBody "ann@x.com" "guess") Demo.ann_registered)) = true
   /\ disciplined (signIn (mkSignInBody "ann@x.com" "guess")) Demo.ann_registered = false
   /\ calls_made (signIn (mkSignInBody "ann@x.com" "guess")) Demo.ann_registered
      = [FindOneUser "ann@x.com"])
  /\ (returned (fst (signIn (mkSignInBody "ghost@x.com" "guess") Demo.ann_registered))
      = false
      /\ disciplined (signIn (mkSignInBody "ghost@x.com" "guess")) Demo.ann_registered
         = false
      /\ calls_made (signIn (mkSignInBody "ghost@x.com" "guess")) Demo.ann_registered
         = [FindOneUser "ghost@x.com"]).
Proof. vm_compute. repeat split. Qed.

(** ** The further properties at work *)

#[local] Existing Instance Scenes.signer.

Example mounting_with_jwt :
  App.mount_all true Scenes.services
  = App.mkMounted
      Scenes.services
      ["/sign-in"]
      ["Added signIn service on endpoint POST /sign-in.";
       "Added listProducts service on endpoint Get /products [PROTECTED].";
       "Added Main service to endpoint *."]
      [App.mkRoute "post" "/sign-in" false "signInUser";
       App.mkRoute "get" "/products" true "listProducts"].
Proof. vm_compute. reflexivity. Qed.

Example the_port_defaults :
  App.port None = inr 9000 /\ App.port (Some EmptyString) = inr 9000
  /\ App.port (Some "8080") = inl "8080".
Proof. repeat split. Qed.

Example trimming : trim (tab ++ " ann@x.com " ++ nl) = "ann@x.com".
Proof. vm_compute. reflexivity. Qed.

Example legacy_ann_is_stored :
  Legacy.rows Scenes.legacy_ann_registered = [Scenes.legacy_ann_user]
  /\ Legacy.trace Scenes.legacy_ann_registered
     = [Legacy.ValidateRequest ["given_name"; "maiden_name"; "email_address"; "password"];
        Legacy.Initialise; Legacy.StartTransaction; Legacy.FetchOne "ann@x.com";
        Legacy.Create Scenes.legacy_ann_user; Legacy.Commit;
        Legacy.SendSuccessResponse; Legacy.Close].
Proof. vm_compute. split; reflexivity. Qed.

Lemma register_rejects_a_malformed_address_witness :
  reliable initial
  /\ test emailRegExp (register_email_address Scenes.no_address) = false
  /\ (let w' := snd (register Scenes.no_address initial) in
      fst (register Scenes.no_address initial)
      = Throw (BadRequest (not_an_email (register_email_address Scenes.no_address)))
      /\ calls_made (register Scenes.no_address) initial = [StartTransaction; Rollback]
      /\ db w' = db initial
      /\ outbox w' = outbox initial).
Proof.
  assert (R : reliable initial) by reflexivity.
  assert (T : test emailRegExp (register_email_address Scenes.no_address) = false)
    by (vm_compute; reflexivity).
  exact (conj R (conj T
           (register_rejects_a_malformed_address initial Scenes.no_address R T))).
Defined.

Lemma register_rejects_a_known_address_witness :
  reliable Demo.ann_registered
  /\ test emailRegExp (register_email_address Scenes.ann_again) = true
  /\ Database.find_user (register_email_address Scenes.ann_again)
       (db Demo.ann_registered) = Some Demo.ann_user
  /\ (let w' := snd (register Scenes.ann_again Demo.ann_registered) in
      fst (register Scenes.ann_again Demo.ann_registered)
      = Throw (BadRequest
                 (already_registered (register_email_address Scenes.ann_again)))
      /\ db w' = db Demo.ann_registered
      /\ outbox w' = outbox Demo.ann_registered).
Proof.
  assert (R : reliable Demo.ann_registered) by (vm_compute; reflexivity).
  assert (T : test emailRegExp (register_email_address Scenes.ann_again) = true)
    by (vm_compute; reflexivity).
  assert (F : Database.find_user (register_email_address Scenes.ann_again)
                (db Demo.ann_registered) = Some Demo.ann_user)
    by (vm_compute; reflexivity).
  exact (conj R (conj T (conj F
           (register_rejects_a_known_address Demo.ann_registered Scenes.ann_again
              Demo.ann_user R T F)))).
Defined.

Lemma registering_twice_witness :
  reliable initial
  /\ returned (fst (register Demo.ann initial)) = true
  /\ register_email_address Scenes.ann_again = register_email_address Demo.ann
  /\ (let w1 := snd (register Demo.ann initial) in
      let w2 := snd (register Scenes.ann_again w1) in
      fst (register Scenes.ann_again w1)
      = Throw (BadRequest
                 (already_registered (register_email_address Scenes.ann_again)))
      /\ db w2 = db w1).
Proof.
  assert (R : reliable initial) by reflexivity.
  assert (A : returned (fst (register Demo.ann initial)) = true)
    by (vm_compute; reflexivity).
  assert (E : register_email_address Scenes.ann_again = register_email_address Demo.ann)
    by reflexivity.
  exact (conj R (conj A (conj E
           (registering_twice initial Demo.ann Scenes.ann_again R A E)))).
Defined.

Lemma an_unknown_token_is_refused_witness :
  reliable Demo.ann_registered
  /\ Database.find_user "ann@x.com" (db Demo.ann_registered) = Some Demo.ann_user
  /\ Database.find_token 7 (db Demo.ann_registered) = None
  /\ (fst (activate (mkActivateBody "ann@x.com" 7) Demo.ann_registered)
      = Throw (BadRequest bad_activation_token)
      /\ db (snd (activate (mkActivateBody "ann@x.com" 7) Demo.ann_registered))
         = db Demo.ann_registered)
  /\ (forall password confirmation,
         fst (recover (mkRecoverBody "ann@x.com" 7 password confirmation)
                      Demo.ann_registered)
         = Throw (BadRequest bad_recovery_token)
         /\ db (snd (recover (mkRecoverBody "ann@x.com" 7 password confirmation)
                             Demo.ann_registered))
            = db Demo.ann_registered).
Proof.
  assert (R : reliable Demo.ann_registered) by (vm_compute; reflexivity).
  assert (F : Database.find_user "ann@x.com" (db Demo.ann_registered)
              = Some Demo.ann_user) by (vm_compute; reflexivity).
  assert (K : Database.find_token 7 (db Demo.ann_registered) = None)
    by (vm_compute; reflexivity).
  exact (conj R (conj F (conj K
           (an_unknown_token_is_refused Demo.ann_registered "ann@x.com" 7
              Demo.ann_user R F K)))).
Defined.

Lemma recover_refuses_a_foreign_token_witness :
  reliable Demo.both_registered
  /\ Database.find_user "ann@x.com" (db Demo.both_registered) = Some Demo.ann_user
  /\ Database.find_token 4 (db Demo.both_registered) = Some Demo.bob_token
  /\ Token.user_id Demo.bob_token <> User._id Demo.ann_user
  /\ (let body := mkRecoverBody "ann@x.com" 4 "a" "b" in
      fst (recover body Demo.both_registered) = Throw (BadRequest bad_recovery_token)
      /\ db (snd (recover body Demo.both_registered)) = db Demo.both_registered).
Proof.
  assert (R : reliable Demo.both_registered) by (vm_compute; reflexivity).
  assert (F : Database.find_user "ann@x.com" (db Demo.both_registered)
              = Some Demo.ann_user) by (vm_compute; reflexivity).
  assert (K : Database.find_token 4 (db Demo.both_registered) = Some Demo.bob_token)
    by (vm_compute; reflexivity).
  assert (O : Token.user_id Demo.bob_token <> User._id Demo.ann_user)
    by (simpl; discriminate).
  exact (conj R (conj F (conj K (conj O
           (recover_refuses_a_foreign_token Demo.both_registered "ann@x.com" 4
              Demo.ann_user Demo.bob_token "a" "b" R F K O))))).
Defined.

Lemma recover_mismatch_keeps_the_token_witness :
  reliable Demo.ann_registered
  /\ Database.find_user "ann@x.com" (db Demo.ann_registered) = Some Demo.ann_user
  /\ Database.find_token 2 (db Demo.ann_registered) = Some Demo.ann_token
  /\ Token.user_id Demo.ann_token = User._id Demo.ann_user
  /\ "a" <> "b"
  /\ (let body := mkRecoverBody "ann@x.com" 2 "a" "b" in
      let w' := snd (recover body Demo.ann_registered) in
      fst (recover body Demo.ann_registered) = Throw (BadRequest no_match)
      /\ db w' = db Demo.ann_registered
      /\ fst (recover (mkRecoverBody "ann@x.com" 2 "a" "a") w') = Return recovered).
Proof.
  assert (R : reliable Demo.ann_registered) by (vm_compute; reflexivity).
  assert (F : Database.find_user "ann@x.com" (db Demo.ann_registered)
              = Some Demo.ann_user) by (vm_compute; reflexivity).
  assert (K : Database.find_token 2 (db Demo.ann_registered) = Some Demo.ann_token)
    by (vm_compute; reflexivity).
  assert (O : Token.user_id Demo.ann_token = User._id Demo.ann_user) by reflexivity.
  assert (N : "a" <> "b") by discriminate.
  exact (conj R (conj F (conj K (conj O (conj N
           (recover_mismatch_keeps_the_token Demo.ann_registered "ann@x.com" 2
              Demo.ann_user Demo.ann_token "a" "b" R F K O N)))))).
Defined.

Lemma forgetPassword_issues_one_more_token_witness :
  reliable Demo.ann_registered
  /\ Database.find_user "ann@x.com" (db Demo.ann_registered) = Some Demo.ann_user
  /\ (let w' := snd (forgetPassword (mkForgetPasswordBody "ann@x.com")
                                    Demo.ann_registered) in
      let token :=
        Token.make (Some (Database.next_id (db Demo.ann_registered)))
                   (User._id Demo.ann_user) in
      fst (forgetPassword (mkForgetPasswordBody "ann@x.com") Demo.ann_registered)
      = Return recovery_sent
      /\ Database.users (db w') = Database.users (db Demo.ann_registered)
      /\ Database.tokens (db w')
         = (Database.tokens (db Demo.ann_registered) ++ [token])%list
      /\ outbox w'
         = (outbox Demo.ann_registered
              ++ [recovery_mail Demo.ann_user (link_to Demo.ann_user token)])%list
      /\ (forall id stored,
             Database.find_token id (db Demo.ann_registered) = Some stored ->
             Database.find_token id (db w') = Some stored)).
Proof.
  assert (R : reliable Demo.ann_registered) by (vm_compute; reflexivity).
  assert (F : Database.find_user "ann@x.com" (db Demo.ann_registered)
              = Some Demo.ann_user) by (vm_compute; reflexivity).
  exact (conj R (conj F
           (forgetPassword_issues_one_more_token Demo.ann_registered "ann@x.com"
              Demo.ann_user R F))).
Defined.

Lemma activate_removes_the_token_and_welcomes_witness :
  reliable Demo.both_registered
  /\ Database.find_user "bob@x.com" (db Demo.both_registered) = Some Scenes.bob_user
  /\ Database.find_token 4 (db Demo.both_registered) = Some Demo.bob_token
  /\ Token.user_id Demo.bob_token = User._id Scenes.bob_user
  /\ (let w' := snd (activate (mkActivateBody "bob@x.com" 4) Demo.both_registered) in
      fst (activate (mkActivateBody "bob@x.com" 4) Demo.both_registered)
      = Return activated
      /\ Database.tokens (db w')
         = filter (fun r => negb (Database.token_has_id (Some 4) r))
                  (Database.tokens (db Demo.both_registered))
      /\ outbox w' = (outbox Demo.both_registered ++ [welcome_mail Scenes.bob_user])%list
      /\ mail_to (welcome_mail Scenes.bob_user) = "bob@x.com"
      /\ snapshot w' = None).
Proof.
  assert (R : reliable Demo.both_registered) by (vm_compute; reflexivity).
  assert (F : Database.find_user "bob@x.com" (db Demo.both_registered)
              = Some Scenes.bob_user) by (vm_compute; reflexivity).
  assert (K : Database.find_token 4 (db Demo.both_registered) = Some Demo.bob_token)
    by (vm_compute; reflexivity).
  assert (O : Token.user_id Demo.bob_token = User._id Scenes.bob_user) by reflexivity.
  exact (conj R (conj F (conj K (conj O
           (activate_removes_the_token_and_welcomes Demo.both_registered "bob@x.com" 4
              Scenes.bob_user Demo.bob_token R F K O))))).
Defined.


Lemma other_accounts_are_untouched_witness :
  reliable Demo.both_registered
  /\ consistent (db Demo.both_registered) = true
  /\ "bob@x.com" <> "ann@x.com"
  /\ Database.find_user "bob@x.com"
       (db (snd (activate (mkActivateBody "ann@x.com" 2) Demo.both_registered)))
     = Database.find_user "bob@x.com" (db Demo.both_registered)
  /\ (forall password confirmation,
         Database.find_user "bob@x.com"
           (db (snd (recover (mkRecoverBody "ann@x.com" 2 password confirmation)
                             Demo.both_registered)))
         = Database.find_user "bob@x.com" (db Demo.both_registered)).
Proof.
  assert (R : reliable Demo.both_registered) by (vm_compute; reflexivity).
  assert (C : consistent (db Demo.both_registered) = true) by (vm_compute; reflexivity).
  assert (N : "bob@x.com" <> "ann@x.com") by discriminate.
  exact (conj R (conj C (conj N
           (other_accounts_are_untouched Demo.both_registered "ann@x.com" 2
              "bob@x.com" R C N)))).
Defined.

Lemma other_tokens_survive_witness :
  reliable Demo.ann_forgot
  /\ 3 <> 2
  /\ Database.find_token 3
       (db (snd (activate (mkActivateBody "ann@x.com" 2) Demo.ann_forgot)))
     = Database.find_token 3 (db Demo.ann_forgot)
  /\ (forall password confirmation,
         Database.find_token 3
           (db (snd (recover (mkRecoverBody "ann@x.com" 2 password confirmation)
                             Demo.ann_forgot)))
         = Database.find_token 3 (db Demo.ann_forgot)).
Proof.
  assert (R : reliable Demo.ann_forgot) by (vm_compute; reflexivity).
  assert (N : 3 <> 2) by discriminate.
  exact (conj R (conj N (other_tokens_survive Demo.ann_forgot "ann@x.com" 2 3 R N))).
Defined.

Lemma every_method_keeps_the_store_consistent_witness :
  steady Scenes.mail_down = true
  /\ steady (snd (register Demo.ann Scenes.mail_down)) = true
  /\ steady Demo.both_registered = true
  /\ steady (snd (activate (mkActivateBody "bob@x.com" 4) Demo.both_registered)) = true.
Proof.
  assert (S1 : steady Scenes.mail_down = true) by (vm_compute; reflexivity).
  assert (S2 : steady Demo.both_registered = true) by (vm_compute; reflexivity).
  destruct (every_method_keeps_the_store_consistent Scenes.mail_down S1)
    as (_ & Reg & _).
  destruct (every_method_keeps_the_store_consistent Demo.both_registered S2)
    as (_ & _ & Act & _).
  exact (conj S1 (conj (Reg Demo.ann) (conj S2 (Act (mkActivateBody "bob@x.com" 4))))).
Defined.

Lemma a_writer_that_throws_changes_nothing_witness :
  snapshot Scenes.mail_down = None
  /\ returned (fst (register Demo.ann Scenes.mail_down)) = false
  /\ rollback_failed (fst (register Demo.ann Scenes.mail_down)) = false
  /\ db (snd (register Demo.ann Scenes.mail_down)) = db Scenes.mail_down.
Proof.
  assert (S : snapshot Scenes.mail_down = None) by reflexivity.
  assert (T : returned (fst (register Demo.ann Scenes.mail_down)) = false)
    by (vm_compute; reflexivity).
  assert (N : rollback_failed (fst (register Demo.ann Scenes.mail_down)) = false)
    by (vm_compute; reflexivity).
  destruct (a_writer_that_throws_changes_nothing Scenes.mail_down S) as (Reg & _).
  exact (conj S (conj T (conj N (Reg Demo.ann T N)))).
Defined.

Lemma a_failed_commit_keeps_the_mail_witness :
  snapshot Scenes.commit_down = None
  /\ commit_failed (fst (register Demo.ann Scenes.commit_down)) = true
  /\ db (snd (register Demo.ann Scenes.commit_down)) = db Scenes.commit_down
  /\ exists mail,
      outbox (snd (register Demo.ann Scenes.commit_down))
      = (outbox Scenes.commit_down ++ [mail])%list.
Proof.
  assert (S : snapshot Scenes.commit_down = None) by reflexivity.
  assert (C : commit_failed (fst (register Demo.ann Scenes.commit_down)) = true)
    by (vm_compute; reflexivity).
  destruct (a_failed_commit_keeps_the_mail Scenes.commit_down S) as (Reg & _).
  exact (conj S (conj C (Reg Demo.ann C))).
Defined.


Lemma an_accepted_address_has_its_parts_witness :
  test emailRegExp "ann@x.com" = true
  /\ (exists local_part domain,
         "ann@x.com" = (local_part ++ "@" ++ domain)%string
         /\ local_part <> EmptyString
         /\ domain <> EmptyString)
  /\ (exists c, first_char "ann@x.com" = Some c /\ RegExp.space c = false)
  /\ (exists z, last_char "ann@x.com" = Some z /\ (alpha z = true \/ code z = 93))
  /\ trim "ann@x.com" = "ann@x.com".
Proof.
  assert (T : test emailRegExp "ann@x.com" = true) by (vm_compute; reflexivity).
  exact (conj T (an_accepted_address_has_its_parts "ann@x.com" T)).
Defined.

Lemma a_plain_address_is_accepted_witness :
  "ann" <> EmptyString
  /\ all_chars atom_char "ann" = true
  /\ "x" <> EmptyString
  /\ all_chars label_char "x" = true
  /\ all_chars alpha "com" = true
  /\ (2 <= String.length "com")%nat
  /\ test emailRegExp ("ann" ++ "@" ++ "x" ++ "." ++ "com") = true.
Proof.
  assert (N1 : "ann" <> EmptyString) by discriminate.
  assert (A1 : all_chars atom_char "ann" = true) by (vm_compute; reflexivity).
  assert (N2 : "x" <> EmptyString) by discriminate.
  assert (A2 : all_chars label_char "x" = true) by (vm_compute; reflexivity).
  assert (A3 : all_chars alpha "com" = true) by (vm_compute; reflexivity).
  assert (L : (2 <= String.length "com")%nat) by (simpl; lia).
  exact (conj N1 (conj A1 (conj N2 (conj A2 (conj A3 (conj L
           (a_plain_address_is_accepted "ann" "x" "com" N1 A1 N2 A2 A3 L))))))).
Defined.

Lemma signInUser_checks_the_password_witness :
  Legacy.reliable Scenes.legacy_ann_registered
  /\ find (fun u => String.eqb (Legacy.email_address u) "ann@x.com")
          (Legacy.rows Scenes.legacy_ann_registered)
     = Some Scenes.legacy_ann_user
  /\ Legacy.replies_sent
       (Legacy.signInUser (Legacy.mkSignInRequest "ann@x.com" "Secret123!"))
       Scenes.legacy_ann_registered
     = [Legacy.SuccessResponse (Legacy.Token "secret.ann@x.com")]
  /\ Legacy.replies_sent
       (Legacy.signInUser (Legacy.mkSignInRequest "ann@x.com" "guess"))
       Scenes.legacy_ann_registered
     = [Legacy.ErrorResponse (Legacy.Crafted Legacy.sign_in_failed 400)].
Proof.
  assert (R : Legacy.reliable Scenes.legacy_ann_registered) by (vm_compute; reflexivity).
  assert (F : find (fun u => String.eqb (Legacy.email_address u) "ann@x.com")
                   (Legacy.rows Scenes.legacy_ann_registered)
              = Some Scenes.legacy_ann_user) by (vm_compute; reflexivity).
  exact (conj R (conj F (conj
           (signInUser_checks_the_password Scenes.legacy_ann_registered
              (Legacy.mkSignInRequest "ann@x.com" "Secret123!")
              Scenes.legacy_ann_user R F)
           (signInUser_checks_the_password Scenes.legacy_ann_registered
              (Legacy.mkSignInRequest "ann@x.com" "guess")
              Scenes.legacy_ann_user R F)))).
Defined.

Lemma a_rejection_settles_no_transaction_witness :
  Legacy.reliable Scenes.legacy_ann_registered
  /\ Legacy.calls_made
       (Legacy.signInUser (Legacy.mkSignInRequest "ann@x.com" "guess"))
       Scenes.legacy_ann_registered
     = [Legacy.ValidateRequest ["email_address"; "password"]; Legacy.Initialise;
        Legacy.StartTransaction; Legacy.FetchOne "ann@x.com";
        Legacy.SendErrorResponse; Legacy.Close]
  /\ Legacy.calls_made (Legacy.registerUser Scenes.legacy_ann)
       Scenes.legacy_ann_registered
     = [Legacy.ValidateRequest ["given_name"; "maiden_name"; "email_address"; "password"];
        Legacy.Initialise; Legacy.StartTransaction; Legacy.FetchOne "ann@x.com";
        Legacy.SendErrorResponse; Legacy.Close].
Proof.
  assert (R : Legacy.reliable Scenes.legacy_ann_registered) by (vm_compute; reflexivity).
  destruct (a_rejection_settles_no_transaction Scenes.legacy_ann_registered R)
    as (In & Reg).
  assert (V : match find (fun u => String.eqb (Legacy.email_address u) "ann@x.com")
                         (Legacy.rows Scenes.legacy_ann_registered) with
              | Some user => compareSync "guess" (Legacy.password user) = false
              | None => True
              end) by (vm_compute; reflexivity).
  assert (T : test emailRegExp
                (trim (Legacy.register_email_address Scenes.legacy_ann)) = true)
    by (vm_compute; reflexivity).
  assert (F : find (fun u => String.eqb (Legacy.email_address u)
                                (Legacy.register_email_address Scenes.legacy_ann))
                   (Legacy.rows Scenes.legacy_ann_registered)
              = Some Scenes.legacy_ann_user) by (vm_compute; reflexivity).
  exact (conj R (conj (In (Legacy.mkSignInRequest "ann@x.com" "guess") V)
                      (proj1 (Reg Scenes.legacy_ann Scenes.legacy_ann_user T F)))).
Defined.

Lemma registerUser_stores_the_address_as_given_witness :
  Legacy.reliable Scenes.nobody
  /\ test emailRegExp (trim (Legacy.register_email_address Scenes.spaced_ann)) = true
  /\ find (fun u => String.eqb (Legacy.email_address u)
                       (Legacy.register_email_address Scenes.spaced_ann))
          (Legacy.rows Scenes.nobody) = None
  /\ Legacy.rows (snd (Legacy.registerUser Scenes.spaced_ann Scenes.nobody))
     = [Legacy.mkIUser 0 "Ann" "Lee" " ann@x.com" "$2b$Secret123!" 1700000000000 None]
  /\ test emailRegExp " ann@x.com" = false.
Proof.
  assert (R : Legacy.reliable Scenes.nobody) by reflexivity.
  assert (T : test emailRegExp
                (trim (Legacy.register_email_address Scenes.spaced_ann)) = true)
    by (vm_compute; reflexivity).
  assert (F : find (fun u => String.eqb (Legacy.email_address u)
                                (Legacy.register_email_address Scenes.spaced_ann))
                   (Legacy.rows Scenes.nobody) = None) by reflexivity.
  destruct (registerUser_stores_the_address_as_given Scenes.nobody Scenes.spaced_ann
              R T F) as (Rows & _ & Rejected).
  assert (N : trim (Legacy.register_email_address Scenes.spaced_ann)
              <> Legacy.register_email_address Scenes.spaced_ann)
    by (vm_compute; discriminate).
  exact (conj R (conj T (conj F (conj Rows (Rejected N))))).
Defined.

Lemma registerUser_rejects_before_the_model_witness :
  Legacy.reliable Scenes.nobody
  /\ test emailRegExp (trim "ann at x.com") = false
  /\ Legacy.calls_made
       (Legacy.registerUser (Legacy.mkRegisterRequest "Ann" "Lee" "ann at x.com" "pw"))
       Scenes.nobody
     = [Legacy.ValidateRequest ["given_name"; "maiden_name"; "email_address"; "password"];
        Legacy.SendErrorResponse; Legacy.Close]
  /\ Legacy.replies_sent
       (Legacy.registerUser (Legacy.mkRegisterRequest "Ann" "Lee" "ann at x.com" "pw"))
       Scenes.nobody
     = [Legacy.ErrorResponse
          (Legacy.Crafted (Legacy.invalid_address "ann at x.com") 400)]
  /\ Legacy.rows
       (snd (Legacy.registerUser
               (Legacy.mkRegisterRequest "Ann" "Lee" "ann at x.com" "pw") Scenes.nobody))
     = Legacy.rows Scenes.nobody.
Proof.
  assert (R : Legacy.reliable Scenes.nobody) by reflexivity.
  assert (T : test emailRegExp (trim "ann at x.com") = false)
    by (vm_compute; reflexivity).
  exact (conj R (conj T
           (registerUser_rejects_before_the_model Scenes.nobody
              (Legacy.mkRegisterRequest "Ann" "Lee" "ann at x.com" "pw") R T))).
Defined.
